(** * Conductor: the event timeline encoding of the generator scripts

    A shallow embedding of the three generator scripts of the repository
    ([generate-test-event.py], [generate-conductor-qr.py] and
    [generate-pantheon-qr.py]): the event values they build and the
    [encode_event] pipeline (compact JSON, gzip, URL-safe base64) that
    turns an event into the token of a [conductor://event/<token>] link.

    Python values are modelled as the scripts use them: [str] as a list
    of code points, [bytes] as a list of [byte], [dict] as an
    insertion-ordered association list (the order is what [json.dumps]
    prints), exceptions as a result type. *)

From Stdlib Require Import List ZArith NArith Lia ZifyBool Bool Ascii String.
From Stdlib Require Import Strings.Byte.
From Stdlib Require Import DecimalN DecimalPos DecimalFacts Sorted.
Import ListNotations.

Set Implicit Arguments.
Set Warnings "-register-all".

Local Open Scope N_scope.

(** ** Python values and exceptions *)

(** A Python [str]: its sequence of code points. *)
Definition pystr := list N.

(** A Python [bytes] object. *)
Definition bytes := list byte.

(** A [str] literal of the source whose characters are all ASCII. *)
Definition str (x : string) : pystr :=
  map N_of_ascii (list_ascii_of_string x).

(** The exceptions the modelled code can raise. *)
Inductive pyerror : Type :=
| KeyError (key : pystr)
| TypeError
| OverflowError
| StructError
| UnicodeEncodeError
| UnicodeDecodeError.

Inductive result (A : Type) : Type :=
| Ok (a : A)
| Raise (e : pyerror).

Arguments Ok {A} a.
Arguments Raise {A} e.

Definition bind {A B} (r : result A) (k : A -> result B) : result B :=
  match r with
  | Ok a => k a
  | Raise e => Raise e
  end.

Notation "x <- r ;; k" := (bind r (fun x => k))
  (at level 61, r at next level, right associativity).

(** The values the scripts put into an event (no floats occur). A dict
    keeps its items in insertion order. *)
Inductive pyval : Type :=
| PNone
| PBool (b : bool)
| PInt (z : Z)
| PStr (x : pystr)
| PList (l : list pyval)
| PDict (d : list (pystr * pyval)).

Definition pydict := list (pystr * pyval).

Definition pystr_eqb (a b : pystr) : bool :=
  if list_eq_dec N.eq_dec a b then true else false.

(** [d[k]] *)
Fixpoint dict_get (d : pydict) (k : pystr) : result pyval :=
  match d with
  | [] => Raise (KeyError k)
  | (k', v) :: d' => if pystr_eqb k' k then Ok v else dict_get d' k
  end.

(** [d[k] = v]: an existing key keeps its position, a new key is
    appended. *)
Fixpoint dict_set (d : pydict) (k : pystr) (v : pyval) : pydict :=
  match d with
  | [] => [(k, v)]
  | (k', v') :: d' =>
      if pystr_eqb k' k then (k', v) :: d' else (k', v') :: dict_set d' k v
  end.

(** A dict display [{k1: v1, ..., **d}]: the items are stored one after
    the other, left to right. *)
Definition dict_of_items (items : list (pystr * pyval)) : pydict :=
  fold_left (fun d kv => dict_set d (fst kv) (snd kv)) items [].

(** ** str and bytes primitives *)

(** [sep.join(parts)] *)
Fixpoint join (sep : pystr) (parts : list pystr) : pystr :=
  match parts with
  | [] => []
  | [p] => p
  | p :: ps => p ++ sep ++ join sep ps
  end.

(** [s.replace(old, new)] for one-character [old] and [new]. *)
Definition replace (old new : N) (x : pystr) : pystr :=
  map (fun c => if N.eqb c old then new else c) x.

Fixpoint lstrip (c : N) (x : pystr) : pystr :=
  match x with
  | [] => []
  | a :: x' => if N.eqb a c then lstrip c x' else x
  end.

(** [s.rstrip(c)] for a one-character [c]. *)
Definition rstrip (c : N) (x : pystr) : pystr :=
  rev (lstrip c (rev x)).

Definition byte_of_N (n : N) : byte :=
  match Byte.of_N (n mod 256) with
  | Some b => b
  | None => x00
  end.

(** [s.encode('utf-8')]: surrogates cannot be encoded. *)
Definition utf8_char (c : N) : result bytes :=
  if (c <? 0x80)%N then Ok [byte_of_N c]
  else if (c <? 0x800)%N then
    Ok [byte_of_N (0xC0 + c / 64); byte_of_N (0x80 + c mod 64)]
  else if (c <? 0x10000)%N then
    if ((0xD800 <=? c) && (c <=? 0xDFFF))%N then Raise UnicodeEncodeError
    else Ok [byte_of_N (0xE0 + c / 4096);
             byte_of_N (0x80 + (c / 64) mod 64);
             byte_of_N (0x80 + c mod 64)]
  else if (c <? 0x110000)%N then
    Ok [byte_of_N (0xF0 + c / 262144);
        byte_of_N (0x80 + (c / 4096) mod 64);
        byte_of_N (0x80 + (c / 64) mod 64);
        byte_of_N (0x80 + c mod 64)]
  else Raise UnicodeEncodeError.

Fixpoint encode_utf8 (x : pystr) : result bytes :=
  match x with
  | [] => Ok []
  | c :: x' =>
      b <- utf8_char c ;;
      bs <- encode_utf8 x' ;;
      Ok (b ++ bs)
  end.

(** [b.decode('ascii')] *)
Fixpoint decode_ascii (b : bytes) : result pystr :=
  match b with
  | [] => Ok []
  | a :: b' =>
      if (Byte.to_N a <? 128)%N
      then (x <- decode_ascii b' ;; Ok (Byte.to_N a :: x))
      else Raise UnicodeDecodeError
  end.

(** ** json.dumps(obj, separators=(',', ':')) *)

Definition digit_char (d : N) : N := (48 + d)%N.

Fixpoint uint_chars (d : Decimal.uint) : pystr :=
  match d with
  | Decimal.Nil => []
  | Decimal.D0 d' => digit_char 0 :: uint_chars d'
  | Decimal.D1 d' => digit_char 1 :: uint_chars d'
  | Decimal.D2 d' => digit_char 2 :: uint_chars d'
  | Decimal.D3 d' => digit_char 3 :: uint_chars d'
  | Decimal.D4 d' => digit_char 4 :: uint_chars d'
  | Decimal.D5 d' => digit_char 5 :: uint_chars d'
  | Decimal.D6 d' => digit_char 6 :: uint_chars d'
  | Decimal.D7 d' => digit_char 7 :: uint_chars d'
  | Decimal.D8 d' => digit_char 8 :: uint_chars d'
  | Decimal.D9 d' => digit_char 9 :: uint_chars d'
  end.

(** [int.__repr__] *)
Definition int_repr (z : Z) : pystr :=
  match z with
  | Zneg p => 45%N :: uint_chars (Pos.to_uint p)
  | _ => uint_chars (N.to_uint (Z.to_N z))
  end.

Definition hex_char (d : N) : N :=
  if (d <? 10)%N then (48 + d)%N else (87 + d)%N.

(** ['\\u{0:04x}'.format(n)] for [n < 0x10000] *)
Definition u_escape (n : N) : pystr :=
  [92; 117; hex_char (n / 4096); hex_char ((n / 256) mod 16);
   hex_char ((n / 16) mod 16); hex_char (n mod 16)]%N.

(** The replacement of one character by [py_encode_basestring_ascii]:
    printable ASCII other than the quote and the backslash is kept, the
    rest is escaped, characters beyond the BMP as a surrogate pair. *)
Definition escape_char (c : N) : pystr :=
  if (c =? 34)%N then [92; 34]%N
  else if (c =? 92)%N then [92; 92]%N
  else if ((32 <=? c) && (c <=? 126))%N then [c]
  else if (c =? 8)%N then [92; 98]%N
  else if (c =? 12)%N then [92; 102]%N
  else if (c =? 10)%N then [92; 110]%N
  else if (c =? 13)%N then [92; 114]%N
  else if (c =? 9)%N then [92; 116]%N
  else if (c <? 0x10000)%N then u_escape c
  else
    let n := (c - 0x10000)%N in
    u_escape (N.lor 0xD800 (N.land (N.shiftr n 10) 0x3FF))
      ++ u_escape (N.lor 0xDC00 (N.land n 0x3FF)).

Definition encode_basestring_ascii (x : pystr) : pystr :=
  (34%N :: flat_map escape_char x) ++ [34%N].

Fixpoint json_dumps (v : pyval) : pystr :=
  match v with
  | PNone => str "null"
  | PBool true => str "true"
  | PBool false => str "false"
  | PInt z => int_repr z
  | PStr x => encode_basestring_ascii x
  | PList l => str "[" ++ join (str ",") (map json_dumps l) ++ str "]"
  | PDict d =>
      str "{"
        ++ join (str ",")
             (map (fun kv =>
                     encode_basestring_ascii (fst kv) ++ str ":"
                       ++ json_dumps (snd kv)) d)
        ++ str "}"
  end.

(** ** gzip.compress(data) *)

Fixpoint iterate {A} (n : nat) (f : A -> A) (a : A) : A :=
  match n with
  | O => a
  | S n' => iterate n' f (f a)
  end.

(** One bit of the reflected CRC-32 (polynomial 0xEDB88320). *)
Definition crc_step (c : N) : N :=
  if N.testbit c 0 then N.lxor (N.shiftr c 1) 0xEDB88320 else N.shiftr c 1.

Definition crc_byte (crc : N) (b : byte) : N :=
  iterate 8%nat crc_step (N.lxor crc (Byte.to_N b)).

(** [zlib.crc32(data)] *)
Definition crc32 (data : bytes) : N :=
  N.lxor (fold_left crc_byte data 0xFFFFFFFF) 0xFFFFFFFF.

Definition le32 (n : N) : bytes :=
  [byte_of_N n; byte_of_N (n / 256); byte_of_N (n / 65536);
   byte_of_N (n / 16777216)].

(** [struct.pack("<L", n)] *)
Definition pack_u32 (n : N) : result bytes :=
  if (n <? 2 ^ 32)%N then Ok (le32 n) else Raise StructError.

Section Gzip.

(** [zlib.compress(data, level=9, wbits=-15)]: the raw deflate stream
    of the C library, kept abstract. *)
Variable deflate : bytes -> bytes.

(** [_create_simple_gzip_header(9, None)], where [clock] is
    [int(time.time())]: compression level 9 gives XFL = 2. *)
Definition create_simple_gzip_header (clock : N) : result bytes :=
  mtime <- pack_u32 clock ;;
  Ok ([x1f; x8b; x08; x00] ++ mtime ++ [x02; xff]).

(** [gzip.compress(data)]: no [mtime] is passed, so the header holds
    the time of the call. *)
Definition gzip_compress (clock : N) (data : bytes) : result bytes :=
  header <- create_simple_gzip_header clock ;;
  crc <- pack_u32 (crc32 data) ;;
  isize <- pack_u32 (N.land (N.of_nat (List.length data)) 0xFFFFFFFF) ;;
  Ok (header ++ deflate data ++ crc ++ isize).

End Gzip.

(** ** base64.b64encode *)

Definition b64_table : bytes :=
  list_byte_of_string
    "ABCDEFGHIJKLMNOPQRSTUVWXYZabcdefghijklmnopqrstuvwxyz0123456789+/".

Definition b64_char (i : N) : byte := nth (N.to_nat i) b64_table x3d.

Fixpoint b64encode (data : bytes) : bytes :=
  match data with
  | [] => []
  | [a] =>
      let n := Byte.to_N a in
      [b64_char (n / 4); b64_char ((n mod 4) * 16); x3d; x3d]
  | [a; b] =>
      let n := (Byte.to_N a * 256 + Byte.to_N b)%N in
      [b64_char (n / 1024); b64_char ((n / 16) mod 64);
       b64_char ((n mod 16) * 4); x3d]
  | a :: b :: c :: rest =>
      let n := (Byte.to_N a * 65536 + Byte.to_N b * 256 + Byte.to_N c)%N in
      b64_char (n / 262144) :: b64_char ((n / 4096) mod 64)
        :: b64_char ((n / 64) mod 64) :: b64_char (n mod 64)
        :: b64encode rest
  end.

(** ** encode_event

    The three scripts define [encode_event] with the same four
    statements. [clock] is the reading of the wall clock that
    [gzip.compress] takes. *)

Section Encode.

Variable deflate : bytes -> bytes.

Definition encode_event (clock : N) (event : pyval) : result pystr :=
  let json_str := json_dumps event in
  data <- encode_utf8 json_str ;;
  compressed <- gzip_compress deflate clock data ;;
  b64 <- decode_ascii (b64encode compressed) ;;
  let url_safe := rstrip 61 (replace 47 95 (replace 43 45 b64)) in
  Ok url_safe.

End Encode.

(** ** The datetime module

    A [datetime] is kept as the number of microseconds since the
    midnight that starts ordinal day 0 (ordinal day 1 is 0001-01-01), a
    [timedelta] as a number of microseconds. The calendar functions are
    those of Lib/_pydatetime.py. *)

Module Datetime.

Local Open Scope Z_scope.

Definition datetime := Z.
Definition timedelta := Z.

Definition US_PER_SECOND : Z := 1000000.
Definition US_PER_DAY : Z := 86400 * US_PER_SECOND.
Definition MAXORDINAL : Z := 3652059.

(** The days of a [timedelta] lie in [-999999999, 999999999]. *)
Definition timedelta_new (us : Z) : result timedelta :=
  if (-999999999 <=? us / US_PER_DAY) && (us / US_PER_DAY <=? 999999999)
  then Ok us else Raise OverflowError.

(** [timedelta(minutes=m)] for an int [m] *)
Definition timedelta_minutes (m : Z) : result timedelta :=
  timedelta_new (m * 60 * US_PER_SECOND).

(** [timedelta(seconds=v)]: [v] must be a number; a bool is an int. *)
Definition timedelta_seconds (v : pyval) : result timedelta :=
  match v with
  | PInt z => timedelta_new (z * US_PER_SECOND)
  | PBool b => timedelta_new ((if b then 1 else 0) * US_PER_SECOND)
  | _ => Raise TypeError
  end.

(** [datetime.__add__]: the result must fall on an ordinal day in
    [1, MAXORDINAL]. *)
Definition add (d : datetime) (td : timedelta) : result datetime :=
  let r := d + td in
  if (0 <? r / US_PER_DAY) && (r / US_PER_DAY <=? MAXORDINAL)
  then Ok r else Raise OverflowError.

Definition DAYS_IN_MONTH : list Z :=
  [-1; 31; 28; 31; 30; 31; 30; 31; 31; 30; 31; 30; 31].

Definition DAYS_BEFORE_MONTH : list Z :=
  [-1; 0; 31; 59; 90; 120; 151; 181; 212; 243; 273; 304; 334].

Definition DI400Y : Z := 146097.
Definition DI100Y : Z := 36524.
Definition DI4Y : Z := 1461.

Definition b2z (b : bool) : Z := if b then 1 else 0.

(** [_ord2ymd(n)] *)
Definition ord2ymd (ordinal : Z) : Z * Z * Z :=
  let n := ordinal - 1 in
  let n400 := n / DI400Y in
  let n := n mod DI400Y in
  let year := n400 * 400 + 1 in
  let n100 := n / DI100Y in
  let n := n mod DI100Y in
  let n4 := n / DI4Y in
  let n := n mod DI4Y in
  let n1 := n / 365 in
  let n := n mod 365 in
  let year := year + n100 * 100 + n4 * 4 + n1 in
  if (n1 =? 4) || (n100 =? 4) then (year - 1, 12, 31)
  else
    let leapyear := (n1 =? 3) && (negb (n4 =? 24) || (n100 =? 3)) in
    let month := Z.shiftr (n + 50) 5 in
    let preceding :=
      nth (Z.to_nat month) DAYS_BEFORE_MONTH 0
        + b2z ((2 <? month) && leapyear) in
    if n <? preceding then
      let month := month - 1 in
      let preceding :=
        preceding
          - (nth (Z.to_nat month) DAYS_IN_MONTH 0
               + b2z ((month =? 2) && leapyear)) in
      (year, month, n - preceding + 1)
    else (year, month, n - preceding + 1).

(** A ["%0<width>d"] field for a non-negative number. *)
Definition zfill (width : nat) (n : Z) : pystr :=
  let digits := int_repr n in
  repeat 48%N (width - List.length digits) ++ digits.

(** [d.strftime("%Y-%m-%dT%H:%M:%SZ")]; the year is printed on four
    digits, as the library documents [%Y]. *)
Definition strftime (d : datetime) : pystr :=
  let '(year, month, day) := ord2ymd (d / US_PER_DAY) in
  let second := (d mod US_PER_DAY) / US_PER_SECOND in
  zfill 4 year ++ str "-" ++ zfill 2 month ++ str "-" ++ zfill 2 day
    ++ str "T" ++ zfill 2 (second / 3600) ++ str ":"
    ++ zfill 2 ((second / 60) mod 60) ++ str ":"
    ++ zfill 2 (second mod 60) ++ str "Z".

(** [datetime(year, month, day, hour, minute, second)] through
    [_ymd2ord]; used to write sample clock readings. *)
Definition is_leap (year : Z) : bool :=
  (year mod 4 =? 0) && (negb (year mod 100 =? 0) || (year mod 400 =? 0)).

Definition days_before_year (year : Z) : Z :=
  let y := year - 1 in y * 365 + y / 4 - y / 100 + y / 400.

Definition ymd2ord (year month day : Z) : Z :=
  days_before_year year
    + (nth (Z.to_nat month) DAYS_BEFORE_MONTH 0
         + b2z ((2 <? month) && is_leap year))
    + day.

Definition make (year month day hour minute second : Z) : datetime :=
  ymd2ord year month day * US_PER_DAY
    + (hour * 3600 + minute * 60 + second) * US_PER_SECOND.

End Datetime.

(** ** The timeline builders *)

(** An event template of [generate-conductor-qr.py]: a dict with the
    keys [title], [description] and [actions]; each action template is a
    dict. *)
Record template : Type := {
  title : pystr;
  description : pystr;
  actions : list pydict
}.

Definition EVENTS : list (pystr * template) :=
  [
  (str "inaugural",
   {| title := str "Pantheon Inaugural";
      description :=
        str "Your AI assistants present: a demonstration of synchronized coordination.";
      actions :=
        [
          [(str "relativeTime", PInt 0);
           (str "action", PStr (str "Take a deep breath. The Pantheon is online."));
           (str "color", PStr (str "#9C27B0"));
           (str "icon", PStr [0x1f3db; 0xfe0f]);
           (str "style", PStr (str "emphasis"));
           (str "hapticPattern", PStr (str "single"));
           (str "noticeSeconds", PInt 15);
           (str "countdownSeconds", PList [PInt 10; PInt 5; PInt 3; PInt 2; PInt 1])];
          [(str "relativeTime", PInt 20);
           (str "action", PStr (str "Raise your phone like a torch. You are the conductor now."));
           (str "color", PStr (str "#FF9800"));
           (str "icon", PStr [0x1f525]);
           (str "style", PStr (str "emphasis"));
           (str "hapticPattern", PStr (str "double"));
           (str "noticeSeconds", PInt 10);
           (str "countdownSeconds", PList [PInt 5; PInt 3; PInt 2; PInt 1])];
          [(str "relativeTime", PInt 40);
           (str "action", PStr (str "Look left, then right. You're part of something bigger."));
           (str "color", PStr (str "#2196F3"));
           (str "icon", PStr [0x1f440]); (str "style", PStr (str "normal"));
           (str "hapticPattern", PStr (str "single"));
           (str "noticeSeconds", PInt 10);
           (str "countdownSeconds", PList [PInt 5; PInt 3; PInt 2; PInt 1])];
          [(str "relativeTime", PInt 60);
           (str "action", PStr (str "Clap once. The signal has been sent."));
           (str "color", PStr (str "#4CAF50"));
           (str "icon", PStr [0x1f44f]); (str "style", PStr (str "alert"));
           (str "hapticPattern", PStr (str "triple"));
           (str "noticeSeconds", PInt 10);
           (str "countdownSeconds", PList [PInt 5; PInt 3; PInt 2; PInt 1])];
          [(str "relativeTime", PInt 80);
           (str "action", PStr (str "Final pose: arms crossed, slight nod. Test complete."));
           (str "color", PStr (str "#E91E63")); (str "icon", PStr [0x2728]);
           (str "style", PStr (str "emphasis"));
           (str "hapticPattern", PStr (str "double"));
           (str "noticeSeconds", PInt 10);
           (str "countdownSeconds", PList [PInt 5; PInt 3; PInt 2; PInt 1])]
        ] |});
  (str "diagnostic",
   {| title := str "Pantheon Node Initialization";
      description :=
        str "System diagnostic and welcome sequence for Conductor mobile node.";
      actions :=
        [
          [(str "relativeTime", PInt 0);
           (str "action", PStr (str "System Link Established"));
           (str "color", PStr (str "#4CAF50"));
           (str "icon", PStr [0x1f517]); (str "style", PStr (str "normal"));
           (str "hapticPattern", PStr (str "single"));
           (str "noticeSeconds", PInt 10);
           (str "countdownSeconds", PList [PInt 5; PInt 3; PInt 2; PInt 1])];
          [(str "relativeTime", PInt 30);
           (str "action", PStr (str "Audio Channel Diagnostic"));
           (str "color", PStr (str "#2196F3"));
           (str "icon", PStr [0x1f50a]);
           (str "style", PStr (str "emphasis"));
           (str "hapticPattern", PStr (str "double"));
           (str "noticeSeconds", PInt 5);
           (str "countdownSeconds", PList [PInt 3; PInt 2; PInt 1])];
          [(str "relativeTime", PInt 60);
           (str "action", PStr (str "Haptic Array Stress Test"));
           (str "color", PStr (str "#FF9800"));
           (str "icon", PStr [0x1f4f3]); (str "style", PStr (str "alert"));
           (str "hapticPattern", PStr (str "triple"));
           (str "noticeSeconds", PInt 5);
           (str "countdownSeconds", PList [PInt 3; PInt 2; PInt 1])];
          [(str "relativeTime", PInt 90);
           (str "action", PStr (str "Visual Synchronization"));
           (str "color", PStr (str "#F44336"));
           (str "icon", PStr [0x1f441; 0xfe0f]);
           (str "style", PStr (str "emphasis"));
           (str "hapticPattern", PStr (str "triple"));
           (str "noticeSeconds", PInt 5);
           (str "countdownSeconds", PList [PInt 3; PInt 2; PInt 1])];
          [(str "relativeTime", PInt 120);
           (str "action", PStr (str "Welcome to the Network, Operator."));
           (str "color", PStr (str "#9C27B0"));
           (str "icon", PStr [0x1f3db; 0xfe0f]);
           (str "style", PStr (str "emphasis"));
           (str "hapticPattern", PStr (str "double"));
           (str "noticeSeconds", PInt 10);
           (str "countdownSeconds", PList [PInt 5; PInt 4; PInt 3; PInt 2; PInt 1])];
          [(str "relativeTime", PInt 150);
           (str "action", PStr (str "Entering Standby Mode"));
           (str "color", PStr (str "#607D8B"));
           (str "icon", PStr [0x1f4a4]); (str "style", PStr (str "normal"));
           (str "hapticPattern", PStr (str "single"));
           (str "noticeSeconds", PInt 5);
           (str "countdownSeconds", PList [PInt 3; PInt 2; PInt 1])]
        ] |})
  ].

(** [EVENTS[template_name]] *)
Fixpoint events_get (events : list (pystr * template)) (name : pystr)
  : result template :=
  match events with
  | [] => Raise (KeyError name)
  | (k, t) :: events' =>
      if pystr_eqb k name then Ok t else events_get events' name
  end.

(** [{k: v for k, v in action_template.items() if k not in ["action"]}] *)
Definition without_action (action_template : pydict) : pydict :=
  filter (fun kv => negb (pystr_eqb (fst kv) (str "action"))) action_template.

(** The loop of [generate_event] over [enumerate(template["actions"])],
    from index [i] on. *)
Fixpoint build_actions (start_time : Datetime.datetime) (i : Z)
    (action_templates : list pydict) : result (list pyval) :=
  match action_templates with
  | [] => Ok []
  | action_template :: rest =>
      relative <- dict_get action_template (str "relativeTime") ;;
      delta <- Datetime.timedelta_seconds relative ;;
      action_time <- Datetime.add start_time delta ;;
      text <- dict_get action_template (str "action") ;;
      let action :=
        dict_of_items
          ([(str "id", PStr (str "action-" ++ int_repr (i + 1)));
            (str "time", PStr (Datetime.strftime action_time));
            (str "action", text);
            (str "audioAnnounce", PBool true);
            (str "announceActionName", PBool true)]
             ++ without_action action_template) in
      actions <- build_actions start_time (i + 1) rest ;;
      Ok (PDict action :: actions)
  end.

(** The body of [generate_event] once the template is looked up and the
    start time is computed. *)
Definition build_event (tz : pystr) (t : template)
    (start_time : Datetime.datetime) : result pyval :=
  actions <- build_actions start_time 0 (actions t) ;;
  Ok (PDict [(str "title", PStr (title t));
             (str "description", PStr (description t));
             (str "startTime", PStr (Datetime.strftime start_time));
             (str "timezone", PStr tz);
             (str "timeline", PList actions)]).

(** [generate_event(template_name, start_minutes_from_now)] of
    [generate-conductor-qr.py]; [now] is [datetime.now(timezone.utc)]. *)
Definition generate_event (now : Datetime.datetime) (template_name : pystr)
    (start_minutes_from_now : Z) : result pyval :=
  t <- events_get EVENTS template_name ;;
  delta <- Datetime.timedelta_minutes start_minutes_from_now ;;
  start_time <- Datetime.add now delta ;;
  build_event (str "America/Denver") t start_time.

(** [generate-test-event.py] *)
Definition action_texts : list (pystr * pystr) :=
  [(str "Raise hand", str "emphasis");
   (str "Wave slowly", str "normal");
   (str "Clap once", str "alert");
   (str "Turn around", str "normal");
   (str "Take a step forward", str "normal");
   (str "Final pose", str "emphasis")].

Fixpoint test_actions (start_time : Datetime.datetime)
    (action_interval_seconds : Z) (i : Z) (texts : list (pystr * pystr))
  : result (list pyval) :=
  match texts with
  | [] => Ok []
  | (text, style) :: rest =>
      delta <- Datetime.timedelta_seconds
                 (PInt (i * action_interval_seconds)%Z) ;;
      action_time <- Datetime.add start_time delta ;;
      let action :=
        dict_of_items
          [(str "id", PStr (str "action-" ++ int_repr (i + 1)));
           (str "time", PStr (Datetime.strftime action_time));
           (str "action", PStr text);
           (str "audioAnnounce", PBool true);
           (str "announceActionName", PBool true);
           (str "style", PStr style);
           (str "hapticPattern",
             PStr (if pystr_eqb style (str "normal")
                   then str "double" else str "triple"))] in
      actions <- test_actions start_time action_interval_seconds (i + 1) rest ;;
      Ok (PDict action :: actions)
  end.

Definition generate_test_event (now : Datetime.datetime)
    (start_minutes_from_now action_interval_seconds : Z) : result pyval :=
  delta <- Datetime.timedelta_minutes start_minutes_from_now ;;
  start_time <- Datetime.add now delta ;;
  actions <- test_actions start_time action_interval_seconds 0 action_texts ;;
  Ok (PDict [(str "title", PStr (str "Test Flash Mob"));
             (str "description",
               PStr (str "A test event for Conductor Mobile development"));
             (str "startTime", PStr (Datetime.strftime start_time));
             (str "timezone", PStr (str "America/New_York"));
             (str "timeline", PList actions)]).

(** [generate-pantheon-qr.py]: the action dicts are written out with
    their ids, and the loop stores ["time"] into each of them. *)
Definition pantheon_actions : list pydict :=
  [
    [(str "id", PStr (str "action-1")); (str "relativeTime", PInt 0);
     (str "action", PStr (str "Take a deep breath. The Pantheon is online."));
     (str "audioAnnounce", PBool true); (str "noticeSeconds", PInt 15);
     (str "countdownSeconds", PList [PInt 10; PInt 5; PInt 3; PInt 2; PInt 1]);
     (str "announceActionName", PBool true);
     (str "color", PStr (str "#9C27B0"));
     (str "icon", PStr [0x1f3db; 0xfe0f]);
     (str "style", PStr (str "emphasis"));
     (str "hapticPattern", PStr (str "single"))];
    [(str "id", PStr (str "action-2")); (str "relativeTime", PInt 20);
     (str "action", PStr (str "Raise your phone like a torch. You are the conductor now."));
     (str "audioAnnounce", PBool true); (str "noticeSeconds", PInt 10);
     (str "countdownSeconds", PList [PInt 5; PInt 3; PInt 2; PInt 1]);
     (str "announceActionName", PBool true);
     (str "color", PStr (str "#FF9800")); (str "icon", PStr [0x1f525]);
     (str "style", PStr (str "emphasis"));
     (str "hapticPattern", PStr (str "double"))];
    [(str "id", PStr (str "action-3")); (str "relativeTime", PInt 40);
     (str "action", PStr (str "Look left, then right. You're part of something bigger."));
     (str "audioAnnounce", PBool true); (str "noticeSeconds", PInt 10);
     (str "countdownSeconds", PList [PInt 5; PInt 3; PInt 2; PInt 1]);
     (str "announceActionName", PBool true);
     (str "color", PStr (str "#2196F3")); (str "icon", PStr [0x1f440]);
     (str "style", PStr (str "normal"));
     (str "hapticPattern", PStr (str "single"))];
    [(str "id", PStr (str "action-4")); (str "relativeTime", PInt 60);
     (str "action", PStr (str "Clap once. The signal has been sent."));
     (str "audioAnnounce", PBool true); (str "noticeSeconds", PInt 10);
     (str "countdownSeconds", PList [PInt 5; PInt 3; PInt 2; PInt 1]);
     (str "announceActionName", PBool true);
     (str "color", PStr (str "#4CAF50")); (str "icon", PStr [0x1f44f]);
     (str "style", PStr (str "alert"));
     (str "hapticPattern", PStr (str "triple"))];
    [(str "id", PStr (str "action-5")); (str "relativeTime", PInt 80);
     (str "action", PStr (str "Final pose: arms crossed, slight nod. Test complete."));
     (str "audioAnnounce", PBool true); (str "noticeSeconds", PInt 10);
     (str "countdownSeconds", PList [PInt 5; PInt 3; PInt 2; PInt 1]);
     (str "announceActionName", PBool true);
     (str "color", PStr (str "#E91E63")); (str "icon", PStr [0x2728]);
     (str "style", PStr (str "emphasis"));
     (str "hapticPattern", PStr (str "double"))]
  ].

Fixpoint set_times (start_time : Datetime.datetime) (actions : list pydict)
  : result (list pyval) :=
  match actions with
  | [] => Ok []
  | action :: rest =>
      relative <- dict_get action (str "relativeTime") ;;
      delta <- Datetime.timedelta_seconds relative ;;
      action_time <- Datetime.add start_time delta ;;
      let action :=
        dict_set action (str "time") (PStr (Datetime.strftime action_time)) in
      actions <- set_times start_time rest ;;
      Ok (PDict action :: actions)
  end.

Definition generate_pantheon_event (now : Datetime.datetime)
    (start_minutes_from_now : Z) : result pyval :=
  delta <- Datetime.timedelta_minutes start_minutes_from_now ;;
  start_time <- Datetime.add now delta ;;
  actions <- set_times start_time pantheon_actions ;;
  Ok (PDict [(str "title", PStr (str "Pantheon Inaugural"));
             (str "description",
               PStr (str "Your AI assistants present: a demonstration of synchronized coordination."));
             (str "startTime", PStr (Datetime.strftime start_time));
             (str "timezone", PStr (str "America/Denver"));
             (str "timeline", PList actions)]).

(** ** The decoder

    The scripts only encode; the decoder lives in the mobile client,
    outside these sources. It is modelled here from the decode contract
    of the specification. *)

Module Decode.

Inductive schema_detail : Type :=
| NotAnObject
| MissingField (field : pystr)
| InvalidValue (field : pystr) (offending : pyval).

Inductive decode_error : Type :=
| CorruptPayloadError
| SchemaError (detail : schema_detail).

(** Modelled from the spec: the padding that step 1 of the decode
    contract re-inserts, [(4 - len(token) % 4) % 4] characters [=]. *)
Definition pad_length (token : pystr) : N :=
  (4 - N.of_nat (List.length token) mod 4) mod 4.

(** Modelled from the spec: re-insert the padding and undo the two
    character substitutions of the encoder. *)
Definition restore_b64 (token : pystr) : pystr :=
  replace 95 47 (replace 45 43 token)
    ++ repeat 61 (N.to_nat (pad_length token)).

(** The index of a character in the base64 alphabet. *)
Definition b64_index (c : N) : option N :=
  if (65 <=? c) && (c <=? 90) then Some (c - 65)
  else if (97 <=? c) && (c <=? 122) then Some (c - 71)
  else if (48 <=? c) && (c <=? 57) then Some (c + 4)
  else if c =? 43 then Some 62
  else if c =? 47 then Some 63
  else None.

(** One group of four characters; only the last group of a text may
    end with padding. *)
Definition b64_quad (c0 c1 c2 c3 : N) (last : bool) : option bytes :=
  match b64_index c0, b64_index c1, b64_index c2, b64_index c3 with
  | Some i0, Some i1, Some i2, Some i3 =>
      let n := i0 * 262144 + i1 * 4096 + i2 * 64 + i3 in
      Some [byte_of_N (n / 65536); byte_of_N (n / 256); byte_of_N n]
  | Some i0, Some i1, Some i2, None =>
      if last && (c3 =? 61) then
        let n := i0 * 4096 + i1 * 64 + i2 in
        Some [byte_of_N (n / 1024); byte_of_N (n / 4)]
      else None
  | Some i0, Some i1, None, None =>
      if last && (c2 =? 61) && (c3 =? 61)
      then Some [byte_of_N (i0 * 4 + i1 / 16)]
      else None
  | _, _, _, _ => None
  end.

Definition is_nil {A} (l : list A) : bool :=
  match l with [] => true | _ => false end.

(** Modelled from the spec: base64 decoding of step 1; anything that
    is not padded base64 text is refused. *)
Fixpoint b64decode (x : pystr) : option bytes :=
  match x with
  | [] => Some []
  | c0 :: c1 :: c2 :: c3 :: rest =>
      match b64_quad c0 c1 c2 c3 (is_nil rest), b64decode rest with
      | Some group, Some bs => Some (group ++ bs)
      | _, _ => None
      end
  | _ => None
  end.

(** Modelled from the spec: the decompression of step 2, for the
    gzip member the encoder writes (a ten-byte header without optional
    fields, a raw deflate stream, then CRC-32 and length). [inflate]
    reads one raw deflate stream and returns what follows it. *)
Definition le32_value (b0 b1 b2 b3 : byte) : N :=
  Byte.to_N b0 + 256 * Byte.to_N b1 + 65536 * Byte.to_N b2
    + 16777216 * Byte.to_N b3.

Section Gunzip.

Variable inflate : bytes -> option (bytes * bytes).

Definition gunzip (b : bytes) : option bytes :=
  match b with
  | id1 :: id2 :: cm :: flg :: _ :: _ :: _ :: _ :: _ :: _ :: body =>
      if (Byte.to_N id1 =? 0x1f) && (Byte.to_N id2 =? 0x8b)
         && (Byte.to_N cm =? 8) && (Byte.to_N flg =? 0)
      then
        match inflate body with
        | Some (data, [c0; c1; c2; c3; s0; s1; s2; s3]) =>
            if (le32_value c0 c1 c2 c3 =? crc32 data)
               && (le32_value s0 s1 s2 s3
                   =? N.of_nat (List.length data) mod 2 ^ 32)
            then Some data else None
        | _ => None
        end
      else None
  | _ => None
  end.

End Gunzip.

Definition is_cont (b : byte) : bool :=
  (0x80 <=? Byte.to_N b) && (Byte.to_N b <? 0xC0).

(** Modelled from the spec: the decompressed bytes read as UTF-8 text
    (shortest forms only, no surrogates). *)
Fixpoint decode_utf8 (b : bytes) : option pystr :=
  match b with
  | [] => Some []
  | a :: r =>
      let n := Byte.to_N a in
      if n <? 0x80 then option_map (cons n) (decode_utf8 r)
      else if (0xC2 <=? n) && (n <? 0xE0) then
        match r with
        | b1 :: r' =>
            if is_cont b1
            then option_map
                   (cons ((n - 0xC0) * 64 + (Byte.to_N b1 - 0x80)))
                   (decode_utf8 r')
            else None
        | _ => None
        end
      else if (0xE0 <=? n) && (n <? 0xF0) then
        match r with
        | b1 :: b2 :: r' =>
            let c := (n - 0xE0) * 4096 + (Byte.to_N b1 - 0x80) * 64
                     + (Byte.to_N b2 - 0x80) in
            if is_cont b1 && is_cont b2 && (0x800 <=? c)
               && negb ((0xD800 <=? c) && (c <=? 0xDFFF))
            then option_map (cons c) (decode_utf8 r')
            else None
        | _ => None
        end
      else if (0xF0 <=? n) && (n <? 0xF5) then
        match r with
        | b1 :: b2 :: b3 :: r' =>
            let c := (n - 0xF0) * 262144 + (Byte.to_N b1 - 0x80) * 4096
                     + (Byte.to_N b2 - 0x80) * 64 + (Byte.to_N b3 - 0x80) in
            if is_cont b1 && is_cont b2 && is_cont b3
               && (0x10000 <=? c) && (c <? 0x110000)
            then option_map (cons c) (decode_utf8 r')
            else None
        | _ => None
        end
      else None
  end.

(** *** The JSON reader *)

Definition is_ws (c : N) : bool :=
  (c =? 32) || (c =? 9) || (c =? 10) || (c =? 13).

Fixpoint skip_ws (x : pystr) : pystr :=
  match x with
  | c :: x' => if is_ws c then skip_ws x' else x
  | [] => []
  end.

Definition is_digit (c : N) : bool := (48 <=? c) && (c <=? 57).

Definition hex_value (c : N) : option N :=
  if (48 <=? c) && (c <=? 57) then Some (c - 48)
  else if (97 <=? c) && (c <=? 102) then Some (c - 87)
  else if (65 <=? c) && (c <=? 70) then Some (c - 55)
  else None.

Definition hex4 (a b c d : N) : option N :=
  match hex_value a, hex_value b, hex_value c, hex_value d with
  | Some x, Some y, Some z, Some w => Some (x * 4096 + y * 256 + z * 16 + w)
  | _, _, _, _ => None
  end.

Definition is_high (u : N) : bool := (0xD800 <=? u) && (u <=? 0xDBFF).
Definition is_low (u : N) : bool := (0xDC00 <=? u) && (u <=? 0xDFFF).

Definition push (c : N) (r : option (pystr * pystr))
  : option (pystr * pystr) :=
  match r with
  | Some (x, rest) => Some (c :: x, rest)
  | None => None
  end.

(** The characters of a string literal after its opening quote, up
    to the closing quote. A high surrogate escape followed by a low
    surrogate escape is one character. *)
Fixpoint scan_string (x : pystr) : option (pystr * pystr) :=
  match x with
  | [] => None
  | 34 :: rest => Some ([], rest)
  | 92 :: x1 =>
      match x1 with
      | 34 :: x2 => push 34 (scan_string x2)
      | 92 :: x2 => push 92 (scan_string x2)
      | 47 :: x2 => push 47 (scan_string x2)
      | 98 :: x2 => push 8 (scan_string x2)
      | 102 :: x2 => push 12 (scan_string x2)
      | 110 :: x2 => push 10 (scan_string x2)
      | 114 :: x2 => push 13 (scan_string x2)
      | 116 :: x2 => push 9 (scan_string x2)
      | 117 :: a :: b :: c :: d :: x2 =>
          match hex4 a b c d with
          | None => None
          | Some u =>
              if is_high u then
                match x2 with
                | 92 :: 117 :: a' :: b' :: c' :: d' :: x3 =>
                    match hex4 a' b' c' d' with
                    | Some u' =>
                        if is_low u'
                        then push (0x10000 + (u - 0xD800) * 1024
                                     + (u' - 0xDC00))
                               (scan_string x3)
                        else push u (scan_string x2)
                    | None => push u (scan_string x2)
                    end
                | _ => push u (scan_string x2)
                end
              else push u (scan_string x2)
          end
      | _ => None
      end
  | c :: x' => if c <? 32 then None else push c (scan_string x')
  end.

Fixpoint scan_digits (x : pystr) : pystr * pystr :=
  match x with
  | c :: x' =>
      if is_digit c
      then let (ds, rest) := scan_digits x' in (c :: ds, rest)
      else ([], x)
  | [] => ([], [])
  end.

Definition digits_value (ds : pystr) : N :=
  fold_left (fun acc c => acc * 10 + (c - 48)) ds 0.

(** An integer literal: [0] or a digit string without a leading
    zero. *)
Definition scan_nat (x : pystr) : option (N * pystr) :=
  match scan_digits x with
  | ([], _) => None
  | ([48], rest) => Some (0, rest)
  | (48 :: _, _) => None
  | (ds, rest) => Some (digits_value ds, rest)
  end.

(** One JSON value at the head of the text, and the text after it.
    [fuel] bounds the nesting and the number of items read. *)
Fixpoint parse_value (fuel : nat) (x : pystr) : option (pyval * pystr) :=
  match fuel with
  | O => None
  | S fuel' =>
      match skip_ws x with
      | 110 :: 117 :: 108 :: 108 :: rest => Some (PNone, rest)
      | 116 :: 114 :: 117 :: 101 :: rest => Some (PBool true, rest)
      | 102 :: 97 :: 108 :: 115 :: 101 :: rest => Some (PBool false, rest)
      | 34 :: x1 =>
          match scan_string x1 with
          | Some (s, rest) => Some (PStr s, rest)
          | None => None
          end
      | 91 :: x1 =>
          match skip_ws x1 with
          | 93 :: rest => Some (PList [], rest)
          | _ =>
              match parse_elements fuel' x1 with
              | Some (l, rest) => Some (PList l, rest)
              | None => None
              end
          end
      | 123 :: x1 =>
          match skip_ws x1 with
          | 125 :: rest => Some (PDict [], rest)
          | _ =>
              match parse_members fuel' x1 with
              | Some (d, rest) => Some (PDict d, rest)
              | None => None
              end
          end
      | 45 :: x1 =>
          match scan_nat x1 with
          | Some (n, rest) => Some (PInt (- Z.of_N n), rest)
          | None => None
          end
      | x0 =>
          match scan_nat x0 with
          | Some (n, rest) => Some (PInt (Z.of_N n), rest)
          | None => None
          end
      end
  end

with parse_elements (fuel : nat) (x : pystr)
  : option (list pyval * pystr) :=
  match fuel with
  | O => None
  | S fuel' =>
      match parse_value fuel' x with
      | Some (v, x1) =>
          match skip_ws x1 with
          | 44 :: x2 =>
              match parse_elements fuel' x2 with
              | Some (l, rest) => Some (v :: l, rest)
              | None => None
              end
          | 93 :: rest => Some ([v], rest)
          | _ => None
          end
      | None => None
      end
  end

with parse_members (fuel : nat) (x : pystr)
  : option (pydict * pystr) :=
  match fuel with
  | O => None
  | S fuel' =>
      match skip_ws x with
      | 34 :: x1 =>
          match scan_string x1 with
          | Some (k, x2) =>
              match skip_ws x2 with
              | 58 :: x3 =>
                  match parse_value fuel' x3 with
                  | Some (v, x4) =>
                      match skip_ws x4 with
                      | 44 :: x5 =>
                          match parse_members fuel' x5 with
                          | Some (d, rest) => Some ((k, v) :: d, rest)
                          | None => None
                          end
                      | 125 :: rest => Some ([(k, v)], rest)
                      | _ => None
                      end
                  | None => None
                  end
              | _ => None
              end
          | None => None
          end
      | _ => None
      end
  end.

(** The whole text is one JSON value. *)
Definition json_loads (text : pystr) : option pyval :=
  match parse_value (S (List.length text)) text with
  | Some (v, rest) =>
      match skip_ws rest with
      | [] => Some v
      | _ => None
      end
  | None => None
  end.

(** *** The Event and Action schema (section 3 of the specification) *)

Inductive Style : Type := normal | emphasis | alert.

Inductive HapticPattern : Type := single | double | triple.

Record Action : Type := {
  id : pystr;
  time : pystr;
  action : pystr;
  audioAnnounce : bool;
  announceActionName : bool;
  style : Style;
  hapticPattern : option HapticPattern;
  color : option pystr;
  icon : option pystr;
  noticeSeconds : option N;
  countdownSeconds : option (list N)
}.

Record Event : Type := {
  title : pystr;
  description : option pystr;
  startTime : pystr;
  timezone : pystr;
  timeline : list Action
}.

Definition style_name (s : Style) : pystr :=
  match s with
  | normal => str "normal"
  | emphasis => str "emphasis"
  | alert => str "alert"
  end.

Definition haptic_name (h : HapticPattern) : pystr :=
  match h with
  | single => str "single"
  | double => str "double"
  | triple => str "triple"
  end.

(** A character of a text: a code point that is not a surrogate. *)
Definition is_scalar (c : N) : bool :=
  (c <? 0x110000) && negb ((0xD800 <=? c) && (c <=? 0xDFFF)).

Definition is_text (x : pystr) : bool := forallb is_scalar x.

Definition nonempty (x : pystr) : bool :=
  match x with [] => false | _ => true end.

(** The shape [YYYY-MM-DDTHH:MM:SSZ]: [None] stands for a digit. *)
Definition timestamp_shape : list (option N) :=
  [None; None; None; None; Some 45; None; None; Some 45; None; None;
   Some 84; None; None; Some 58; None; None; Some 58; None; None; Some 90].

Fixpoint has_shape (shape : list (option N)) (x : pystr) : bool :=
  match shape, x with
  | [], [] => true
  | None :: shape', c :: x' => is_digit c && has_shape shape' x'
  | Some k :: shape', c :: x' => (c =? k) && has_shape shape' x'
  | _, _ => false
  end.

Definition is_timestamp (x : pystr) : bool := has_shape timestamp_shape x.

(** The order of two texts, character by character; on timestamps of
    the fixed shape it is the order of the instants. *)
Fixpoint str_le (a b : pystr) : bool :=
  match a, b with
  | [], _ => true
  | _ :: _, [] => false
  | x :: a', y :: b' =>
      if x <? y then true else if x =? y then str_le a' b' else false
  end.

Definition is_hex (c : N) : bool :=
  match hex_value c with Some _ => true | None => false end.

(** [#RRGGBB] *)
Definition is_color (x : pystr) : bool :=
  match x with
  | c :: x' => (c =? 35) && (List.length x' =? 6)%nat && forallb is_hex x'
  | [] => false
  end.

Fixpoint strictly_decreasing (l : list N) : bool :=
  match l with
  | a :: (b :: _) as l' => (b <? a) && strictly_decreasing l'
  | _ => true
  end.

Definition mem (x : pystr) (l : list pystr) : bool :=
  existsb (pystr_eqb x) l.

Definition opt_ok {A} (p : A -> bool) (o : option A) : bool :=
  match o with Some a => p a | None => true end.

(** The invariants of one Action of an event that starts at [start],
    given the ids of the actions before it. *)
Definition valid_action (start : pystr) (seen : list pystr) (a : Action)
  : bool :=
  is_text (id a) && negb (mem (id a) seen)
  && is_timestamp (time a) && str_le start (time a)
  && is_text (action a) && nonempty (action a)
  && opt_ok is_color (color a)
  && opt_ok is_text (icon a)
  && opt_ok strictly_decreasing (countdownSeconds a).

Fixpoint valid_timeline (start : pystr) (seen : list pystr)
    (l : list Action) : bool :=
  match l with
  | [] => true
  | a :: l' =>
      valid_action start seen a && valid_timeline start (id a :: seen) l'
  end.

Definition valid_event (e : Event) : bool :=
  is_text (title e) && nonempty (title e)
  && opt_ok is_text (description e)
  && is_timestamp (startTime e)
  && is_text (timezone e)
  && valid_timeline (startTime e) [] (timeline e).

(** The JSON object of an Event: the fields in schema order, an
    absent optional field left out. *)
Definition optional {A} (key : string) (f : A -> pyval) (o : option A)
  : pydict :=
  match o with
  | Some a => [(str key, f a)]
  | None => []
  end.

Definition nat_list (l : list N) : pyval :=
  PList (map (fun n => PInt (Z.of_N n)) l).

Definition action_to_py (a : Action) : pyval :=
  PDict ([(str "id", PStr (id a));
          (str "time", PStr (time a));
          (str "action", PStr (action a));
          (str "audioAnnounce", PBool (audioAnnounce a));
          (str "announceActionName", PBool (announceActionName a));
          (str "style", PStr (style_name (style a)))]
           ++ optional "hapticPattern" (fun h => PStr (haptic_name h))
                (hapticPattern a)
           ++ optional "color" PStr (color a)
           ++ optional "icon" PStr (icon a)
           ++ optional "noticeSeconds" (fun n => PInt (Z.of_N n))
                (noticeSeconds a)
           ++ optional "countdownSeconds" nat_list (countdownSeconds a)).

Definition event_to_py (e : Event) : pyval :=
  PDict ([(str "title", PStr (title e))]
           ++ optional "description" PStr (description e)
           ++ [(str "startTime", PStr (startTime e));
               (str "timezone", PStr (timezone e));
               (str "timeline", PList (map action_to_py (timeline e)))]).

(** *** Reading an Event out of a JSON value

    Modelled from the spec: step 3 of the decode contract. The fields
    are checked in schema order and the first violation is reported. *)

Inductive checked (A : Type) : Type :=
| Accept (a : A)
| Reject (detail : schema_detail).

Arguments Accept {A} a.
Arguments Reject {A} detail.

Definition and_then {A B} (c : checked A) (k : A -> checked B)
  : checked B :=
  match c with
  | Accept a => k a
  | Reject d => Reject d
  end.

Notation "'check' x := c 'in' k" := (and_then c (fun x => k))
  (at level 10, x name, c at level 100, k at level 200).

Fixpoint field (d : pydict) (k : pystr) : option pyval :=
  match d with
  | [] => None
  | (k', v) :: d' => if pystr_eqb k' k then Some v else field d' k
  end.

Definition required {A} (d : pydict) (key : string)
    (read : pyval -> option A) : checked A :=
  match field d (str key) with
  | None => Reject (MissingField (str key))
  | Some v =>
      match read v with
      | Some a => Accept a
      | None => Reject (InvalidValue (str key) v)
      end
  end.

Definition optional_field {A} (d : pydict) (key : string)
    (read : pyval -> option A) : checked (option A) :=
  match field d (str key) with
  | None => Accept None
  | Some v =>
      match read v with
      | Some a => Accept (Some a)
      | None => Reject (InvalidValue (str key) v)
      end
  end.

Definition read_string (p : pystr -> bool) (v : pyval) : option pystr :=
  match v with
  | PStr x => if p x then Some x else None
  | _ => None
  end.

Definition read_bool (v : pyval) : option bool :=
  match v with
  | PBool b => Some b
  | _ => None
  end.

Definition read_style (v : pyval) : option Style :=
  match v with
  | PStr x =>
      if pystr_eqb x (str "normal") then Some normal
      else if pystr_eqb x (str "emphasis") then Some emphasis
      else if pystr_eqb x (str "alert") then Some alert
      else None
  | _ => None
  end.

Definition read_haptic (v : pyval) : option HapticPattern :=
  match v with
  | PStr x =>
      if pystr_eqb x (str "single") then Some single
      else if pystr_eqb x (str "double") then Some double
      else if pystr_eqb x (str "triple") then Some triple
      else None
  | _ => None
  end.

Definition read_nat (v : pyval) : option N :=
  match v with
  | PInt z => if (0 <=? z)%Z then Some (Z.to_N z) else None
  | _ => None
  end.

Fixpoint read_nats (l : list pyval) : option (list N) :=
  match l with
  | [] => Some []
  | v :: l' =>
      match read_nat v, read_nats l' with
      | Some n, Some ns => Some (n :: ns)
      | _, _ => None
      end
  end.

Definition read_countdown (v : pyval) : option (list N) :=
  match v with
  | PList l =>
      match read_nats l with
      | Some ns => if strictly_decreasing ns then Some ns else None
      | None => None
      end
  | _ => None
  end.

Definition read_list (v : pyval) : option (list pyval) :=
  match v with
  | PList l => Some l
  | _ => None
  end.

Definition read_action (start : pystr) (seen : list pystr) (v : pyval)
  : checked Action :=
  match v with
  | PDict d =>
      check i :=
        required d "id"
          (read_string (fun x => is_text x && negb (mem x seen))) in
      check t :=
        required d "time"
          (read_string (fun x => is_timestamp x && str_le start x)) in
      check a :=
        required d "action"
          (read_string (fun x => is_text x && nonempty x)) in
      check aa := required d "audioAnnounce" read_bool in
      check an := required d "announceActionName" read_bool in
      check s := required d "style" read_style in
      check h := optional_field d "hapticPattern" read_haptic in
      check c := optional_field d "color" (read_string is_color) in
      check ic := optional_field d "icon" (read_string is_text) in
      check ns := optional_field d "noticeSeconds" read_nat in
      check cs := optional_field d "countdownSeconds" read_countdown in
      Accept {| id := i; time := t; action := a; audioAnnounce := aa;
                announceActionName := an; style := s; hapticPattern := h;
                color := c; icon := ic; noticeSeconds := ns;
                countdownSeconds := cs |}
  | _ => Reject (InvalidValue (str "timeline") v)
  end.

Fixpoint read_timeline (start : pystr) (seen : list pystr)
    (l : list pyval) : checked (list Action) :=
  match l with
  | [] => Accept []
  | v :: l' =>
      check a := read_action start seen v in
      check l'' := read_timeline start (id a :: seen) l' in
      Accept (a :: l'')
  end.

Definition event_of_py (v : pyval) : checked Event :=
  match v with
  | PDict d =>
      check t :=
        required d "title"
          (read_string (fun x => is_text x && nonempty x)) in
      check ds := optional_field d "description" (read_string is_text) in
      check st := required d "startTime" (read_string is_timestamp) in
      check tz := required d "timezone" (read_string is_text) in
      check items := required d "timeline" read_list in
      check tl := read_timeline st [] items in
      Accept {| title := t; description := ds; startTime := st;
                timezone := tz; timeline := tl |}
  | _ => Reject NotAnObject
  end.

(** *** decode *)

Inductive outcome : Type :=
| Decoded (e : Event)
| Failed (err : decode_error).

Section Decoder.

Variable inflate : bytes -> option (bytes * bytes).

(** Steps 1 and 2: from the token to the decompressed bytes. *)
Definition payload (token : pystr) : option bytes :=
  match b64decode (restore_b64 token) with
  | Some compressed => gunzip inflate compressed
  | None => None
  end.

(** The JSON value the decompressed bytes denote. *)
Definition payload_value (data : bytes) : option pyval :=
  match decode_utf8 data with
  | Some text => json_loads text
  | None => None
  end.

(** Steps 3 and 4. *)
Definition parse_event (data : bytes) : checked Event :=
  match payload_value data with
  | Some v => event_of_py v
  | None => Reject NotAnObject
  end.

(** Modelled from the spec: [decode(token)]. *)
Definition decode (token : pystr) : outcome :=
  match payload token with
  | None => Failed CorruptPayloadError
  | Some data =>
      match parse_event data with
      | Accept e => Decoded e
      | Reject d => Failed (SchemaError d)
      end
  end.

End Decoder.

End Decode.


(** ** Stored-block deflate

    One raw deflate coder to run the pipeline on: every block is a
    stored block of at most 65535 bytes (what zlib writes at level 0). *)

Module Stored.

Definition le16 (n : N) : bytes := [byte_of_N n; byte_of_N (n / 256)].

Definition block (final : bool) (chunk : bytes) : bytes :=
  let len := N.of_nat (List.length chunk) in
  (if final then x01 else x00) :: le16 len ++ le16 (65535 - len) ++ chunk.

Definition BLOCK : nat := N.to_nat 65535.

Fixpoint deflate_aux (fuel : nat) (data : bytes) : bytes :=
  match fuel with
  | O => block true data
  | S fuel' =>
      if (List.length data <=? BLOCK)%nat then block true data
      else block false (firstn BLOCK data)
             ++ deflate_aux fuel' (skipn BLOCK data)
  end.

Definition deflate (data : bytes) : bytes :=
  deflate_aux (List.length data) data.

Fixpoint inflate_aux (fuel : nat) (b : bytes) : option (bytes * bytes) :=
  match fuel with
  | O => None
  | S fuel' =>
      match b with
      | h :: l0 :: l1 :: n0 :: n1 :: r =>
          let len := Byte.to_N l0 + 256 * Byte.to_N l1 in
          let nlen := Byte.to_N n0 + 256 * Byte.to_N n1 in
          if (Byte.to_N h <? 2) && (len + nlen =? 65535)
             && (len <=? N.of_nat (List.length r))
          then
            let chunk := firstn (N.to_nat len) r in
            let r' := skipn (N.to_nat len) r in
            if Byte.to_N h =? 1 then Some (chunk, r')
            else
              match inflate_aux fuel' r' with
              | Some (d, r'') => Some (chunk ++ d, r'')
              | None => None
              end
          else None
      | _ => None
      end
  end.

Definition inflate (b : bytes) : option (bytes * bytes) :=
  inflate_aux (List.length b) b.

End Stored.

(** ** Auxiliary definitions used to state the properties *)

(** The bytes [gzip.compress] returns at clock reading [clock]. *)
Definition gzip_bytes (deflate : bytes -> bytes) (clock : N) (data : bytes)
  : bytes :=
  ([x1f; x8b; x08; x00] ++ le32 clock ++ [x02; xff])
    ++ deflate data ++ le32 (crc32 data)
    ++ le32 (N.land (N.of_nat (List.length data)) 0xFFFFFFFF).


(** The base64 characters of [data] before the padding. *)
Fixpoint b64_body (data : bytes) : bytes :=
  match data with
  | [] => []
  | [a] =>
      let n := Byte.to_N a in
      [b64_char (n / 4); b64_char ((n mod 4) * 16)]
  | [a; b] =>
      let n := (Byte.to_N a * 256 + Byte.to_N b)%N in
      [b64_char (n / 1024); b64_char ((n / 16) mod 64);
       b64_char ((n mod 16) * 4)]
  | a :: b :: c :: rest =>
      let n := (Byte.to_N a * 65536 + Byte.to_N b * 256 + Byte.to_N c)%N in
      b64_char (n / 262144) :: b64_char ((n / 4096) mod 64)
        :: b64_char ((n / 64) mod 64) :: b64_char (n mod 64)
        :: b64_body rest
  end.

(** The number of [=] characters [b64encode] appends. *)
Fixpoint b64_pad (data : bytes) : nat :=
  match data with
  | [] => 0
  | [_] => 2
  | [_; _] => 1
  | _ :: _ :: _ :: rest => b64_pad rest
  end.

(** The [str] of ASCII bytes. *)
Definition ascii_str (b : bytes) : pystr := map Byte.to_N b.

(** The bytes of an ASCII [str]. *)
Definition ascii_bytes (x : pystr) : bytes := map byte_of_N x.

(** The characters [A-Za-z0-9_-]. *)
Definition is_token_char (c : N) : bool :=
  ((65 <=? c) && (c <=? 90)) || ((97 <=? c) && (c <=? 122))
  || ((48 <=? c) && (c <=? 57)) || (c =? 45) || (c =? 95).

(** The characters of the base64 alphabet. *)
Definition is_b64_char (c : N) : bool :=
  ((65 <=? c) && (c <=? 90)) || ((97 <=? c) && (c <=? 122))
  || ((48 <=? c) && (c <=? 57)) || (c =? 43) || (c =? 47).

(** The last three statements of [encode_event] on the compressed
    bytes. *)
Definition token_of (compressed : bytes) : pystr :=
  rstrip 61 (replace 47 95 (replace 43 45 (ascii_str (b64encode compressed)))).

(** The numbers below [n], for checks by enumeration. *)
Definition below (n : nat) : list N := map N.of_nat (seq 0 n).

(** The number of whitespace characters of a text. *)
Definition ws_count (x : pystr) : nat :=
  List.length (filter Decode.is_ws x).

(** The number of space characters of a [str]. *)
Definition spaces (x : pystr) : nat := List.length (filter (N.eqb 32) x).

(** The number of space characters in the strings (keys and values) of
    a value. *)
Fixpoint spaces_in (v : pyval) : nat :=
  match v with
  | PStr x => spaces x
  | PList l => list_sum (map spaces_in l)
  | PDict d => list_sum (map (fun kv => spaces (fst kv) + spaces_in (snd kv))%nat d)
  | _ => 0%nat
  end.

(** A sample event, for the examples. *)
Definition sample_event : pyval :=
  PDict [(str "title", PStr (str "Test Flash Mob"));
         (str "startTime", PStr (str "2026-11-03T16:48:10Z"));
         (str "timezone", PStr (str "America/New_York"));
         (str "timeline", PList [])].





(** A datetime whose ordinal day is in [1, MAXORDINAL]. *)
Definition in_calendar (d : Datetime.datetime) : Prop :=
  (0 < d / Datetime.US_PER_DAY <= Datetime.MAXORDINAL)%Z.





(** [k in d] *)
Definition has_key (d : pydict) (k : pystr) : bool :=
  existsb (fun kv => pystr_eqb (fst kv) k) d.

(** The keys of a dict are pairwise different. *)
Fixpoint unique_keys (d : pydict) : bool :=
  match d with
  | [] => true
  | (k, _) :: d' => negb (has_key d' k) && unique_keys d'
  end.

(** The integer [relativeTime] of an action template. *)
Definition relative_time (action_template : pydict) : option Z :=
  match dict_get action_template (str "relativeTime") with
  | Ok (PInt z) => Some z
  | _ => None
  end.

(** [start + timedelta(seconds=rel)] is a date of the calendar. *)
Definition offset_ok (start : Datetime.datetime) (rel : Z) : bool :=
  ((-999999999 <=? rel * Datetime.US_PER_SECOND / Datetime.US_PER_DAY)
   && (rel * Datetime.US_PER_SECOND / Datetime.US_PER_DAY <=? 999999999)
   && (0 <? (start + rel * Datetime.US_PER_SECOND) / Datetime.US_PER_DAY)
   && ((start + rel * Datetime.US_PER_SECOND) / Datetime.US_PER_DAY
       <=? Datetime.MAXORDINAL))%Z.

(** An action template as section 4.1 of the specification describes
    it: a dict with an integer [relativeTime] and an [action], and
    without [id] and [time]. *)
Definition action_template_wf (action_template : pydict) : bool :=
  unique_keys action_template
  && has_key action_template (str "action")
  && negb (has_key action_template (str "id"))
  && negb (has_key action_template (str "time"))
  && match relative_time action_template with
     | Some _ => true
     | None => false
     end.

(** A well-formed action template whose offset from [start] is a date
    of the calendar. *)
Definition action_template_ok (start : Datetime.datetime)
    (action_template : pydict) : bool :=
  action_template_wf action_template
  && match relative_time action_template with
     | Some rel => offset_ok start rel
     | None => false
     end.

(** The action templates have a [relativeTime] in [lo, hi]. *)
Definition relative_times_within (lo hi : Z) (templates : list pydict)
  : bool :=
  forallb (fun t => match relative_time t with
                    | Some rel => ((lo <=? rel) && (rel <=? hi))%Z
                    | None => false
                    end) templates.

(** The template of the concrete scenario of the specification: two
    actions, twenty seconds apart. *)
Definition scenario_template : template :=
  {| title := str "Scenario";
     description := str "Two actions";
     actions :=
       [[(str "relativeTime", PInt 0); (str "action", PStr (str "A"));
         (str "style", PStr (str "normal"))];
        [(str "relativeTime", PInt 20); (str "action", PStr (str "B"));
         (str "style", PStr (str "alert"))]] |}.

(** The clock reading of the examples: 2026-11-03T16:46:10Z. *)
Definition sample_now : Datetime.datetime := Datetime.make 2026 11 3 16 46 10.

(** The [time] of a built action. *)
Definition action_time (a : pyval) : option pystr :=
  match a with
  | PDict d =>
      match dict_get d (str "time") with
      | Ok (PStr x) => Some x
      | _ => None
      end
  | _ => None
  end.

(** The event dict the builders return. *)
Definition event_dict (title description start_time tz : pystr)
    (timeline : list pyval) : pyval :=
  PDict [(str "title", PStr title);
         (str "description", PStr description);
         (str "startTime", PStr start_time);
         (str "timezone", PStr tz);
         (str "timeline", PList timeline)].

(** The instant [rel] seconds after [start]. *)
Definition after (start : Datetime.datetime) (rel : Z) : Datetime.datetime :=
  (start + rel * Datetime.US_PER_SECOND)%Z.


(** A template whose action templates carry the same [id]. *)
Definition duplicate_template : template :=
  {| title := str "Duplicate";
     description := str "Two actions with one id";
     actions :=
       [[(str "id", PStr (str "same")); (str "relativeTime", PInt 0);
         (str "action", PStr (str "A")); (str "style", PStr (str "normal"))];
        [(str "id", PStr (str "same")); (str "relativeTime", PInt 20);
         (str "action", PStr (str "B")); (str "style", PStr (str "alert"))]] |}.

(** What the builders keep of an action template in the action built
    from it. *)
Definition retains_relative_time (action_template : pydict) (a : pyval)
  : Prop :=
  exists action rel,
    a = PDict action
    /\ relative_time action_template = Some rel
    /\ dict_get action (str "relativeTime") = Ok (PInt rel).

(** [x] occurs in [y]. *)
Definition occurs_in (x y : pystr) : Prop :=
  exists before after_, y = before ++ x ++ after_.

(** The text of the member [key: v] of a JSON object. *)
Definition json_member (key : pystr) (v : pyval) : pystr :=
  encode_basestring_ascii key ++ str ":" ++ json_dumps v.

(** The property of a built action that claims C5 and C10 state. *)
Definition built_from (start : Datetime.datetime) (i : Z)
    (action_template : pydict) (a : pyval) : Prop :=
  exists action rel,
    a = PDict action
    /\ relative_time action_template = Some rel
    /\ dict_get action (str "time")
       = Ok (PStr (Datetime.strftime (after start rel)))
    /\ dict_get action (str "relativeTime") = Ok (PInt rel).


(** ** The deep link

    [conductor_url = f"conductor://event/{encoded}"], as the three
    scripts build it. *)
Definition conductor_url (encoded : pystr) : pystr :=
  str "conductor://event/" ++ encoded.

(** The text before the first [c] of [x] ([x] when it has none). *)
Fixpoint take_until (c : N) (x : pystr) : pystr :=
  match x with
  | [] => []
  | a :: x' => if a =? c then [] else a :: take_until c x'
  end.

(** [url.rsplit('/', 1)[-1]]: the text after the last [/]. *)
Definition last_segment (url : pystr) : pystr :=
  rev (take_until 47 (rev url)).

(** The [id] of a built action. *)
Definition action_id (a : pyval) : option pystr :=
  match a with
  | PDict d =>
      match dict_get d (str "id") with
      | Ok (PStr x) => Some x
      | _ => None
      end
  | _ => None
  end.

(** The action that [generate_test_event] builds at index [i]. *)
Definition test_action (start : Datetime.datetime) (interval i : Z)
    (text style : pystr) : pyval :=
  PDict [(str "id", PStr (str "action-" ++ int_repr (i + 1)));
         (str "time", PStr (Datetime.strftime (after start (i * interval))));
         (str "action", PStr text);
         (str "audioAnnounce", PBool true);
         (str "announceActionName", PBool true);
         (str "style", PStr style);
         (str "hapticPattern",
           PStr (if pystr_eqb style (str "normal")
                 then str "double" else str "triple"))].
(** * Properties *)

(** Linear arithmetic with divisions and remainders by constants. *)
Ltac div_lia := zify; Z.to_euclidean_division_equations; lia.

(** ** Bytes and 32-bit words *)

Lemma to_N_lt_256 (b : byte) : Byte.to_N b < 256.
Proof. pose proof (Byte.to_N_bounded b). lia. Qed.

Lemma to_N_byte_of_N (n : N) : Byte.to_N (byte_of_N n) = n mod 256.
Proof.
  unfold byte_of_N.
  destruct (Byte.of_N (n mod 256)) as [b|] eqn:E.
  - now apply Byte.to_of_N.
  - pose proof (Byte.to_of_N_option_map (n mod 256)) as H.
    rewrite E in H. simpl in H.
    assert (n mod 256 < 256) by (apply N.mod_lt; lia).
    destruct (N.leb_spec (n mod 256) 255); [discriminate | lia].
Qed.

Lemma byte_of_N_to_N (b : byte) : byte_of_N (Byte.to_N b) = b.
Proof.
  unfold byte_of_N. rewrite N.mod_small by apply to_N_lt_256.
  now rewrite Byte.of_to_N.
Qed.

Lemma byte_of_N_eq (n : N) (b : byte) :
  n mod 256 = Byte.to_N b -> byte_of_N n = b.
Proof.
  intros E. unfold byte_of_N. rewrite E. now rewrite Byte.of_to_N.
Qed.

Lemma byte_of_N_small (n : N) : n < 256 -> Byte.to_N (byte_of_N n) = n.
Proof. intros. rewrite to_N_byte_of_N. now apply N.mod_small. Qed.

Lemma lxor_lt_pow2 (a b n : N) : a < 2 ^ n -> b < 2 ^ n -> N.lxor a b < 2 ^ n.
Proof.
  intros Ha Hb.
  destruct (N.eq_dec (N.lxor a b) 0) as [E|E].
  - rewrite E. apply N.neq_0_lt_0, N.pow_nonzero. lia.
  - apply N.log2_lt_pow2; [lia|].
    eapply N.le_lt_trans; [apply N.log2_lxor|].
    apply N.max_lub_lt.
    + destruct (N.eq_dec a 0) as [->|Na].
      * simpl. destruct (N.eq_dec n 0) as [->|]; [|lia].
        simpl in *. assert (b = 0) by lia. subst. now elim E.
      * apply N.log2_lt_pow2; lia.
    + destruct (N.eq_dec b 0) as [->|Nb].
      * simpl. destruct (N.eq_dec n 0) as [->|]; [|lia].
        simpl in *. assert (a = 0) by lia. subst. now elim E.
      * apply N.log2_lt_pow2; lia.
Qed.

Lemma crc_step_lt (c : N) : c < 2 ^ 32 -> crc_step c < 2 ^ 32.
Proof.
  intros H. unfold crc_step.
  assert (N.shiftr c 1 < 2 ^ 32).
  { rewrite N.shiftr_div_pow2. change (2 ^ 1) with 2.
    apply N.Div0.div_lt_upper_bound. lia. }
  destruct (N.testbit c 0); [apply lxor_lt_pow2|]; trivial.
  reflexivity.
Qed.

Lemma iterate_preserves {A} (P : A -> Prop) (f : A -> A) :
  (forall a, P a -> P (f a)) -> forall n a, P a -> P (iterate n f a).
Proof. intros Hf n. induction n; simpl; auto. Qed.

Lemma crc_byte_lt (c : N) (b : byte) : c < 2 ^ 32 -> crc_byte c b < 2 ^ 32.
Proof.
  intros H. unfold crc_byte.
  apply (iterate_preserves (fun x => x < 2 ^ 32)); [apply crc_step_lt|].
  apply lxor_lt_pow2; trivial.
  pose proof (to_N_lt_256 b). change (2 ^ 32) with 4294967296. lia.
Qed.

Lemma crc32_lt (data : bytes) : crc32 data < 2 ^ 32.
Proof.
  unfold crc32. apply lxor_lt_pow2; [|reflexivity].
  assert (G : forall l c, c < 2 ^ 32 -> fold_left crc_byte l c < 2 ^ 32).
  { induction l; simpl; intros; auto using crc_byte_lt. }
  apply G. reflexivity.
Qed.

Lemma pack_u32_ok (n : N) : n < 2 ^ 32 -> pack_u32 n = Ok (le32 n).
Proof.
  intros H. unfold pack_u32.
  destruct (N.ltb_spec n (2 ^ 32)); [reflexivity | lia].
Qed.

Lemma land_u32_lt (n : N) : N.land n 0xFFFFFFFF < 2 ^ 32.
Proof.
  change 0xFFFFFFFF with (N.ones 32). rewrite N.land_ones.
  apply N.mod_lt. discriminate.
Qed.

Lemma land_u32_mod (n : N) : N.land n 0xFFFFFFFF = n mod 2 ^ 32.
Proof. change 0xFFFFFFFF with (N.ones 32). apply N.land_ones. Qed.

Lemma u32_digits (n : N) :
  n < 2 ^ 32 ->
  n = n mod 256 + 256 * ((n / 256) mod 256) + 65536 * ((n / 65536) mod 256)
      + 16777216 * ((n / 16777216) mod 256).
Proof.
  intros H. change (2 ^ 32) with 4294967296 in H.
  change (n / 65536) with (n / (256 * 256)).
  change (n / 16777216) with (n / (256 * 256 * 256)).
  rewrite <- !N.Div0.div_div.
  pose proof (N.div_mod n 256 ltac:(lia)).
  pose proof (N.div_mod (n / 256) 256 ltac:(lia)).
  pose proof (N.div_mod (n / 256 / 256) 256 ltac:(lia)).
  assert (n / 256 / 256 / 256 < 256)
    by (repeat (apply N.Div0.div_lt_upper_bound); lia).
  rewrite (N.mod_small (n / 256 / 256 / 256) 256) by lia.
  lia.
Qed.

(** The value of a little-endian 32-bit field is the number packed. *)
Lemma le32_inj (n m : N) : n < 2 ^ 32 -> m < 2 ^ 32 -> le32 n = le32 m -> n = m.
Proof.
  intros Hn Hm E. unfold le32 in E.
  injection E as E0 E1 E2 E3.
  apply (f_equal Byte.to_N) in E0, E1, E2, E3.
  rewrite !to_N_byte_of_N in *.
  rewrite (u32_digits Hn), (u32_digits Hm). congruence.
Qed.

Lemma gzip_compress_ok deflate clock data :
  clock < 2 ^ 32 ->
  gzip_compress deflate clock data = Ok (gzip_bytes deflate clock data).
Proof.
  intros H. unfold gzip_compress, create_simple_gzip_header, gzip_bytes.
  rewrite (pack_u32_ok H). simpl.
  rewrite (pack_u32_ok (crc32_lt data)). simpl.
  now rewrite (pack_u32_ok (land_u32_lt _)).
Qed.

Lemma gzip_compress_late deflate clock data :
  2 ^ 32 <= clock -> gzip_compress deflate clock data = Raise StructError.
Proof.
  intros H. unfold gzip_compress, create_simple_gzip_header, pack_u32.
  destruct (N.ltb_spec clock (2 ^ 32)); [lia | reflexivity].
Qed.

(** ** Enumeration and list principles *)

Lemma below_check (P : N -> bool) (n : nat) :
  forallb P (below n) = true -> forall i, i < N.of_nat n -> P i = true.
Proof.
  intros H i Hi. unfold below in H.
  rewrite forallb_forall in H. apply H.
  apply in_map_iff. exists (N.to_nat i). split; [apply N2Nat.id|].
  apply in_seq. lia.
Qed.

Lemma list_ind3 {A} (P : list A -> Prop) :
  P [] -> (forall a, P [a]) -> (forall a b, P [a; b]) ->
  (forall a b c l, P l -> P (a :: b :: c :: l)) ->
  forall l, P l.
Proof.
  intros H0 H1 H2 H3.
  fix IH 1. intros [|a [|b [|c l]]];
    [exact H0 | exact (H1 a) | exact (H2 a b) | exact (H3 a b c l (IH l))].
Qed.

(** ** str primitives *)

Lemma lstrip_repeat (c : N) (k : nat) (x : pystr) :
  lstrip c (repeat c k ++ x) = lstrip c x.
Proof. induction k; simpl; trivial. now rewrite N.eqb_refl. Qed.

Lemma lstrip_head (c a : N) (x : pystr) : a <> c -> lstrip c (a :: x) = a :: x.
Proof. intros H. simpl. now destruct (N.eqb_spec a c). Qed.

Lemma repeat_rev {A} (a : A) (k : nat) : rev (repeat a k) = repeat a k.
Proof.
  induction k; simpl; trivial. rewrite IHk.
  clear. induction k; simpl; congruence.
Qed.

(** Stripping removes exactly a trailing run of [c] from a text without
    [c]. *)
Lemma rstrip_run (c : N) (x : pystr) (k : nat) :
  Forall (fun a => a <> c) x -> rstrip c (x ++ repeat c k) = x.
Proof.
  intros H. unfold rstrip. rewrite rev_app_distr, repeat_rev, lstrip_repeat.
  destruct (rev x) as [|a r] eqn:E.
  - simpl. apply (f_equal (@rev N)) in E. now rewrite rev_involutive in E.
  - rewrite lstrip_head.
    + now rewrite <- E, rev_involutive.
    + rewrite Forall_forall in H. apply H. apply in_rev. rewrite E. now left.
Qed.

Lemma encode_utf8_ascii (x : pystr) :
  Forall (fun c => c < 128) x -> encode_utf8 x = Ok (ascii_bytes x).
Proof.
  induction 1 as [|c x Hc _ IH]; simpl; trivial.
  unfold utf8_char. destruct (N.ltb_spec c 128); [|lia].
  simpl. now rewrite IH.
Qed.

Lemma decode_ascii_ok (b : bytes) :
  Forall (fun a => Byte.to_N a < 128) b -> decode_ascii b = Ok (ascii_str b).
Proof.
  induction 1 as [|a b Ha _ IH]; simpl; trivial.
  destruct (N.ltb_spec (Byte.to_N a) 128); [|lia].
  now rewrite IH.
Qed.

(** ** base64 *)

Lemma b64_char_alphabet (i : N) :
  i < 64 -> is_b64_char (Byte.to_N (b64_char i)) = true.
Proof.
  apply (below_check (fun i => is_b64_char (Byte.to_N (b64_char i))) 64).
  vm_compute. reflexivity.
Qed.

Lemma b64encode_split (data : bytes) :
  b64encode data = b64_body data ++ repeat x3d (b64_pad data).
Proof.
  induction data as [| | |a b c l IH] using list_ind3; trivial.
  cbn [b64encode b64_body b64_pad]. rewrite IH. reflexivity.
Qed.

Lemma b64_body_alphabet (data : bytes) :
  Forall (fun a => is_b64_char (Byte.to_N a) = true) (b64_body data).
Proof.
  induction data as [|a|a b|a b c l IH] using list_ind3; cbn [b64_body];
    try pose proof (to_N_lt_256 a); try pose proof (to_N_lt_256 b);
    try pose proof (to_N_lt_256 c);
    repeat (apply Forall_cons; [apply b64_char_alphabet; div_lia|]);
    first [assumption | apply Forall_nil].
Qed.

Lemma b64_body_length (data : bytes) :
  (List.length (b64_body data) + b64_pad data
   = 4 * ((List.length data + 2) / 3))%nat
  /\ (b64_pad data = (3 - List.length data mod 3) mod 3)%nat.
Proof.
  induction data as [| | |a b c l [IH1 IH2]] using list_ind3;
    try (split; reflexivity).
  cbn [b64_body b64_pad List.length].
  replace (S (S (S (List.length l))) + 2)%nat
    with (List.length l + 2 + 1 * 3)%nat by lia.
  rewrite Nat.div_add by lia.
  replace (S (S (S (List.length l)))) with (List.length l + 1 * 3)%nat by lia.
  rewrite Nat.Div0.mod_add.
  split; lia.
Qed.

(** The token is the base64 body with the two substitutions: all the
    padding, and only the padding, is stripped. *)
Lemma token_of_body (compressed : bytes) :
  token_of compressed
  = replace 47 95 (replace 43 45 (ascii_str (b64_body compressed))).
Proof.
  unfold token_of, ascii_str, replace.
  rewrite b64encode_split, !map_app, !map_repeat.
  change (if Byte.to_N x3d =? 43 then 45 else Byte.to_N x3d) with 61.
  change (if 61 =? 47 then 95 else 61) with 61.
  apply rstrip_run.
  rewrite !Forall_map.
  eapply Forall_impl; [|apply b64_body_alphabet].
  intros a Ha. cbv beta in *.
  unfold is_b64_char in Ha.
  destruct (N.eqb_spec (Byte.to_N a) 43); [discriminate|].
  destruct (N.eqb_spec (Byte.to_N a) 47) as [E|E]; [discriminate|].
  intros E'. rewrite E' in Ha. discriminate Ha.
Qed.

Lemma token_chars (compressed : bytes) :
  Forall (fun c => is_token_char c = true) (token_of compressed).
Proof.
  rewrite token_of_body. unfold ascii_str, replace. rewrite !Forall_map.
  eapply Forall_impl; [|apply b64_body_alphabet].
  intros a Ha. cbv beta in *. unfold is_b64_char in Ha. unfold is_token_char.
  destruct (N.eqb_spec (Byte.to_N a) 43) as [->|]; [reflexivity|].
  destruct (N.eqb_spec (Byte.to_N a) 47) as [->|]; [reflexivity|].
  rewrite !orb_false_r in Ha. rewrite Ha. reflexivity.
Qed.

Lemma token_length (compressed : bytes) :
  List.length (token_of compressed) = List.length (b64_body compressed).
Proof.
  rewrite token_of_body. unfold replace, ascii_str. now rewrite !length_map.
Qed.

Lemma b64_body_length_mod4 (data : bytes) :
  N.of_nat (List.length (b64_body data)) mod 4 <> 1.
Proof.
  induction data as [| | |a b c l IH] using list_ind3;
    try (cbn; discriminate).
  cbn [b64_body List.length].
  rewrite !Nat2N.inj_succ. div_lia.
Qed.

(** ** json.dumps *)

Lemma pyval_induction (P : pyval -> Prop) :
  P PNone -> (forall b, P (PBool b)) -> (forall z, P (PInt z)) ->
  (forall x, P (PStr x)) ->
  (forall l, Forall P l -> P (PList l)) ->
  (forall d, Forall (fun kv => P (snd kv)) d -> P (PDict d)) ->
  forall v, P v.
Proof.
  intros HN HB HI HS HL HD.
  fix IH 1. intros [ |b|z|x|l|d].
  - exact HN.
  - apply HB.
  - apply HI.
  - apply HS.
  - apply HL.
    exact ((fix all (l : list pyval) : Forall P l :=
              match l with
              | [] => Forall_nil P
              | v :: l' => Forall_cons v (IH v) (all l')
              end) l).
  - apply HD.
    exact ((fix all (d : list (pystr * pyval))
              : Forall (fun kv => P (snd kv)) d :=
              match d with
              | [] => Forall_nil _
              | (k, v) :: d' =>
                  @Forall_cons _ (fun kv => P (snd kv)) (k, v) d'
                    (IH v) (all d')
              end) d).
Qed.

Definition printable (c : N) : Prop := 32 <= c <= 126.

Lemma printable_app (x y : pystr) :
  Forall printable x -> Forall printable y -> Forall printable (x ++ y).
Proof. intros. apply Forall_app. now split. Qed.

Lemma printable_str (x : string) :
  forallb (fun c => (32 <=? c) && (c <=? 126)) (str x) = true ->
  Forall printable (str x).
Proof.
  intros H. rewrite forallb_forall in H. apply Forall_forall.
  intros c Hc. specialize (H c Hc). apply andb_prop in H.
  destruct H as [H1 H2]. apply N.leb_le in H1, H2. now split.
Qed.

Lemma uint_chars_printable (d : Decimal.uint) : Forall printable (uint_chars d).
Proof.
  induction d; simpl; constructor; trivial; unfold printable, digit_char; lia.
Qed.

Lemma int_repr_printable (z : Z) : Forall printable (int_repr z).
Proof.
  destruct z; unfold int_repr; try apply uint_chars_printable.
  constructor; [unfold printable; lia | apply uint_chars_printable].
Qed.

Lemma hex_char_printable (d : N) : d < 16 -> printable (hex_char d).
Proof.
  intros H. unfold hex_char, printable.
  destruct (N.ltb_spec d 10); lia.
Qed.

Lemma u_escape_printable (n : N) : n < 0x10000 -> Forall printable (u_escape n).
Proof.
  intros H. unfold u_escape.
  repeat (apply Forall_cons;
          [first [apply hex_char_printable; div_lia | unfold printable; lia]|]).
  constructor.
Qed.

Lemma lor_surrogate (base x : N) :
  (base = 0xD800 \/ base = 0xDC00) -> x < 1024 -> N.lor base x = base + x.
Proof.
  intros Hb Hx.
  assert (G : (N.lor 0xD800 x =? 0xD800 + x) && (N.lor 0xDC00 x =? 0xDC00 + x)
              = true).
  { revert x Hx.
    apply (below_check
             (fun x => (N.lor 0xD800 x =? 0xD800 + x)
                       && (N.lor 0xDC00 x =? 0xDC00 + x)) 1024).
    vm_compute. reflexivity. }
  apply andb_prop in G. destruct G as [G1 G2].
  apply N.eqb_eq in G1, G2. now destruct Hb; subst.
Qed.

Lemma land_3ff (n : N) : N.land n 0x3FF = n mod 1024.
Proof. change 0x3FF with (N.ones 10). apply N.land_ones. Qed.

Lemma escape_char_printable (c : N) : Forall printable (escape_char c).
Proof.
  unfold escape_char.
  repeat match goal with
         | |- context [if ?b then _ else _] => destruct b eqn:?
         end;
    try (repeat constructor; unfold printable; lia).
  - apply u_escape_printable. lia.
  - rewrite !land_3ff.
    rewrite !lor_surrogate by (auto; apply N.mod_lt; lia).
    apply printable_app; apply u_escape_printable.
    + assert ((N.shiftr (c - 65536) 10) mod 1024 < 1024)
        by (apply N.mod_lt; lia). lia.
    + assert ((c - 65536) mod 1024 < 1024) by (apply N.mod_lt; lia). lia.
Qed.

Lemma encode_basestring_printable (x : pystr) :
  Forall printable (encode_basestring_ascii x).
Proof.
  unfold encode_basestring_ascii.
  apply printable_app; [|repeat constructor; unfold printable; lia].
  constructor; [unfold printable; lia|].
  induction x; simpl; [constructor|].
  apply printable_app; [apply escape_char_printable | assumption].
Qed.

Lemma join_printable (sep : pystr) (parts : list pystr) :
  Forall printable sep -> Forall (Forall printable) parts ->
  Forall printable (join sep parts).
Proof.
  intros Hs H. induction H as [|p ps Hp _ IH]; simpl; [constructor|].
  destruct ps; trivial.
  repeat apply printable_app; trivial.
Qed.

(** [json.dumps] writes printable ASCII only ([ensure_ascii] is on). *)
Lemma json_dumps_printable (v : pyval) : Forall printable (json_dumps v).
Proof.
  induction v as [ |b|z|x|l IH|d IH] using pyval_induction.
  - apply printable_str. reflexivity.
  - destruct b; apply printable_str; reflexivity.
  - apply int_repr_printable.
  - apply encode_basestring_printable.
  - cbn [json_dumps].
    repeat apply printable_app; try (apply printable_str; reflexivity).
    apply join_printable; [apply printable_str; reflexivity|].
    now apply Forall_map.
  - cbn [json_dumps].
    repeat apply printable_app; try (apply printable_str; reflexivity).
    apply join_printable; [apply printable_str; reflexivity|].
    apply Forall_map. eapply Forall_impl; [|exact IH].
    intros [k w] Hw. cbn [fst snd] in *.
    apply printable_app; [apply encode_basestring_printable|].
    apply printable_app; [apply printable_str; reflexivity | exact Hw].
Qed.

Lemma printable_ascii (x : pystr) :
  Forall printable x -> Forall (fun c => c < 128) x.
Proof. apply Forall_impl. unfold printable. intros; lia. Qed.

(** ** encode_event *)

(** On every event and for every clock reading that fits the 32-bit
    header field, [encode_event] returns a token: none of its steps
    raises. *)
Lemma encode_event_ok deflate clock event :
  clock < 2 ^ 32 ->
  encode_event deflate clock event
  = Ok (token_of (gzip_bytes deflate clock (ascii_bytes (json_dumps event)))).
Proof.
  intros H. unfold encode_event.
  rewrite encode_utf8_ascii
    by (apply printable_ascii, json_dumps_printable).
  cbn [bind]. rewrite (gzip_compress_ok _ _ H). cbn [bind].
  rewrite decode_ascii_ok; [reflexivity|].
  rewrite b64encode_split. apply Forall_app. split.
  - eapply Forall_impl; [|apply b64_body_alphabet].
    intros a Ha. cbv beta in Ha. unfold is_b64_char in Ha. lia.
  - apply Forall_forall. intros a Ha. apply repeat_spec in Ha. now subst.
Qed.

(** After 2106 the clock no longer fits the header field and
    [struct.pack] raises. *)
Lemma encode_event_late deflate clock event :
  2 ^ 32 <= clock -> encode_event deflate clock event = Raise StructError.
Proof.
  intros H. unfold encode_event.
  rewrite encode_utf8_ascii
    by (apply printable_ascii, json_dumps_printable).
  cbn [bind]. now rewrite (gzip_compress_late _ _ H).
Qed.

Lemma gzip_bytes_length deflate clock data :
  (18 <= List.length (gzip_bytes deflate clock data))%nat.
Proof.
  unfold gzip_bytes. rewrite !length_app. simpl. lia.
Qed.

(** C3. For every event, [encode_event] returns a token that is not
    empty and whose characters all lie in [A-Za-z0-9_-]. *)
Theorem encode_event_alphabet deflate clock event :
  clock < 2 ^ 32 ->
  exists token,
    encode_event deflate clock event = Ok token
    /\ token <> []
    /\ Forall (fun c => is_token_char c = true) token.
Proof.
  intros H. eexists. split; [apply (encode_event_ok _ _ H)|]. split.
  - intros E. apply (f_equal (@List.length N)) in E.
    rewrite token_length in E.
    pose proof (gzip_bytes_length deflate clock
                  (ascii_bytes (json_dumps event))) as L.
    destruct (gzip_bytes deflate clock (ascii_bytes (json_dumps event)))
      as [|a [|b [|c l]]]; simpl in *; try lia; discriminate.
  - apply token_chars.
Qed.

Lemma encode_event_alphabet_witness :
  exists token,
    encode_event Stored.deflate 1700000000 (PDict [(str "title", PStr (str "demo"))])
    = Ok token
    /\ token <> []
    /\ Forall (fun c => is_token_char c = true) token.
Proof.
  apply encode_event_alphabet. reflexivity.
Defined.

(** C9. The length of a token is never congruent to 1 modulo 4: the
    base64 text has a multiple of four characters, of which at most the
    last two are padding. So the padding the decoder re-inserts,
    [(4 - len % 4) % 4] characters, is at most two characters and
    completes the length to a multiple of four. *)
Theorem encode_event_length_mod4 deflate clock event token :
  encode_event deflate clock event = Ok token ->
  let len := N.of_nat (List.length token) in
  len mod 4 <> 1
  /\ (len mod 4 = 0 \/ len mod 4 = 2 \/ len mod 4 = 3)
  /\ Decode.pad_length token <= 2
  /\ (len + Decode.pad_length token) mod 4 = 0.
Proof.
  intros E.
  destruct (N.lt_ge_cases clock (2 ^ 32)) as [H|H].
  2:{ rewrite (encode_event_late _ _ H) in E. discriminate. }
  rewrite (encode_event_ok _ _ H) in E. injection E as <-.
  set (gz := gzip_bytes deflate clock (ascii_bytes (json_dumps event))).
  unfold Decode.pad_length. rewrite token_length.
  pose proof (b64_body_length_mod4 gz) as M.
  cbv zeta. repeat split; div_lia.
Qed.

Lemma encode_event_length_mod4_witness :
  exists token,
    encode_event Stored.deflate 1700000000 (PList []) = Ok token
    /\ N.of_nat (List.length token) mod 4 <> 1.
Proof.
  eexists. split; [reflexivity|].
  apply (@encode_event_length_mod4 Stored.deflate 1700000000 (PList []) _
           eq_refl).
Defined.

(** ** base64 is reversible *)

Lemma b64_index_char (i : N) :
  i < 64 -> Decode.b64_index (Byte.to_N (b64_char i)) = Some i.
Proof.
  intros H.
  assert (G : match Decode.b64_index (Byte.to_N (b64_char i)) with
              | Some j => j =? i
              | None => false
              end = true).
  { revert i H.
    apply (below_check
             (fun i => match Decode.b64_index (Byte.to_N (b64_char i)) with
                       | Some j => j =? i
                       | None => false
                       end) 64).
    vm_compute. reflexivity. }
  destruct (Decode.b64_index (Byte.to_N (b64_char i))); [|discriminate].
  apply N.eqb_eq in G. now subst.
Qed.

Lemma b64_index_pad : Decode.b64_index 61 = None.
Proof. reflexivity. Qed.

Lemma b64_quad_full (a b c : byte) (last : bool) :
  let n := Byte.to_N a * 65536 + Byte.to_N b * 256 + Byte.to_N c in
  Decode.b64_quad (Byte.to_N (b64_char (n / 262144)))
    (Byte.to_N (b64_char ((n / 4096) mod 64)))
    (Byte.to_N (b64_char ((n / 64) mod 64)))
    (Byte.to_N (b64_char (n mod 64))) last
  = Some [a; b; c].
Proof.
  intros n.
  pose proof (to_N_lt_256 a). pose proof (to_N_lt_256 b).
  pose proof (to_N_lt_256 c).
  unfold Decode.b64_quad.
  rewrite !b64_index_char by (subst n; div_lia).
  cbv zeta.
  repeat f_equal; apply byte_of_N_eq; subst n; div_lia.
Qed.

Lemma b64_quad_two (a b : byte) :
  let n := Byte.to_N a * 256 + Byte.to_N b in
  Decode.b64_quad (Byte.to_N (b64_char (n / 1024)))
    (Byte.to_N (b64_char ((n / 16) mod 64)))
    (Byte.to_N (b64_char ((n mod 16) * 4))) 61 true
  = Some [a; b].
Proof.
  intros n.
  pose proof (to_N_lt_256 a). pose proof (to_N_lt_256 b).
  unfold Decode.b64_quad.
  rewrite !b64_index_char by (subst n; div_lia).
  rewrite b64_index_pad. cbn [andb N.eqb Pos.eqb].
  cbv zeta.
  repeat f_equal; apply byte_of_N_eq; subst n; div_lia.
Qed.

Lemma b64_quad_one (a : byte) :
  let n := Byte.to_N a in
  Decode.b64_quad (Byte.to_N (b64_char (n / 4)))
    (Byte.to_N (b64_char ((n mod 4) * 16))) 61 61 true
  = Some [a].
Proof.
  intros n. pose proof (to_N_lt_256 a).
  unfold Decode.b64_quad.
  rewrite !b64_index_char by (subst n; div_lia).
  rewrite b64_index_pad. cbn [andb N.eqb Pos.eqb].
  repeat f_equal; apply byte_of_N_eq; subst n; div_lia.
Qed.

(** Decoding the padded base64 text of [data] gives [data] back. *)
Lemma b64decode_b64encode (data : bytes) :
  Decode.b64decode (ascii_str (b64encode data)) = Some data.
Proof.
  induction data as [|a|a b|a b c l IH] using list_ind3.
  - reflexivity.
  - cbn [b64encode ascii_str map Decode.b64decode Decode.is_nil].
    change (Byte.to_N x3d) with 61.
    now rewrite (b64_quad_one a).
  - cbn [b64encode ascii_str map Decode.b64decode Decode.is_nil].
    change (Byte.to_N x3d) with 61.
    now rewrite (b64_quad_two a b).
  - cbn [b64encode ascii_str map Decode.b64decode].
    rewrite (b64_quad_full a b c).
    unfold ascii_str in IH. now rewrite IH.
Qed.

Lemma url_safe_undo (x : pystr) :
  Forall (fun c => c <> 45 /\ c <> 95) x ->
  replace 95 47 (replace 45 43 (replace 47 95 (replace 43 45 x))) = x.
Proof.
  unfold replace. rewrite !map_map.
  induction 1 as [|c x [H1 H2] _ IH]; cbn [map]; trivial.
  rewrite IH. f_equal.
  destruct (N.eqb_spec c 43) as [->|]; [reflexivity|].
  destruct (N.eqb_spec c 47) as [->|]; [reflexivity|].
  destruct (N.eqb_spec c 45); [contradiction|].
  now destruct (N.eqb_spec c 95).
Qed.

Lemma b64_pad_length (data : bytes) :
  Decode.pad_length (token_of data) = N.of_nat (b64_pad data).
Proof.
  unfold Decode.pad_length. rewrite token_length.
  induction data as [| | |a b c l IH] using list_ind3; try reflexivity.
  cbn [b64_body b64_pad List.length]. rewrite <- IH.
  rewrite !Nat2N.inj_succ. div_lia.
Qed.

(** Re-inserting the padding and undoing the substitutions restores
    the base64 text the encoder started from. *)
Lemma restore_b64_token (data : bytes) :
  Decode.restore_b64 (token_of data) = ascii_str (b64encode data).
Proof.
  unfold Decode.restore_b64. rewrite b64_pad_length, Nat2N.id.
  rewrite token_of_body, b64encode_split.
  unfold ascii_str at 2. rewrite map_app, map_repeat.
  change (Byte.to_N x3d) with 61. f_equal.
  assert (A : Forall (fun c => c <> 45 /\ c <> 95)
                (ascii_str (b64_body data))).
  { unfold ascii_str. apply Forall_map.
    eapply Forall_impl; [|apply b64_body_alphabet].
    intros a Ha. cbv beta in Ha. unfold is_b64_char in Ha. lia. }
  now apply url_safe_undo.
Qed.

(** Step 3 of [encode_event] is reversible. *)
Lemma b64decode_token (data : bytes) :
  Decode.b64decode (Decode.restore_b64 (token_of data)) = Some data.
Proof. rewrite restore_b64_token. apply b64decode_b64encode. Qed.

Lemma token_of_inj (d1 d2 : bytes) : token_of d1 = token_of d2 -> d1 = d2.
Proof.
  intros E. pose proof (b64decode_token d1) as H1.
  rewrite E, b64decode_token in H1. now injection H1.
Qed.

(** ** encode_event and the clock *)

Lemma gzip_bytes_clock deflate c1 c2 d1 d2 :
  c1 < 2 ^ 32 -> c2 < 2 ^ 32 ->
  gzip_bytes deflate c1 d1 = gzip_bytes deflate c2 d2 -> c1 = c2.
Proof.
  intros H1 H2 E. unfold gzip_bytes in E.
  apply (f_equal (fun l => firstn 4 (skipn 4 l))) in E.
  apply (le32_inj H1 H2). exact E.
Qed.

(** C2, as the code has it. [gzip.compress] is called without [mtime],
    so the header of the compressed stream carries the second at which
    the call is made: two calls on the same event return the same token
    exactly when they read the same clock second. *)
Theorem encode_event_clock deflate event clock1 clock2 :
  clock1 < 2 ^ 32 -> clock2 < 2 ^ 32 ->
  (encode_event deflate clock1 event = encode_event deflate clock2 event
   <-> clock1 = clock2).
Proof.
  intros H1 H2. split; [|now intros ->].
  rewrite (encode_event_ok _ _ H1), (encode_event_ok _ _ H2).
  intros E. injection E as E. apply token_of_inj in E.
  exact (gzip_bytes_clock H1 H2 E).
Qed.

Lemma encode_event_clock_witness :
  encode_event Stored.deflate 1700000000 sample_event
  = encode_event Stored.deflate 1700000060 sample_event
  <-> 1700000000 = 1700000060.
Proof.
  apply encode_event_clock; reflexivity.
Defined.

(** C2 as stated fails: one minute later the same event has another
    token. *)
Lemma encode_event_not_deterministic :
  ~ (forall (deflate : bytes -> bytes) (event : pyval) (clock1 clock2 : N),
        encode_event deflate clock1 event = encode_event deflate clock2 event).
Proof.
  intros H.
  specialize (H Stored.deflate sample_event 1700000000 1700000060).
  apply encode_event_clock in H; [discriminate H | reflexivity | reflexivity].
Qed.

(** ** The steps of encode_event *)

Lemma ws_count_app (x y : pystr) :
  ws_count (x ++ y) = (ws_count x + ws_count y)%nat.
Proof. unfold ws_count. now rewrite filter_app, length_app. Qed.

Lemma spaces_app (x y : pystr) : spaces (x ++ y) = (spaces x + spaces y)%nat.
Proof. unfold spaces. now rewrite filter_app, length_app. Qed.

Lemma ws_count_uint (d : Decimal.uint) : ws_count (uint_chars d) = 0%nat.
Proof. induction d; simpl; trivial. Qed.

Lemma ws_count_int (z : Z) : ws_count (int_repr z) = 0%nat.
Proof. destruct z; unfold int_repr; apply ws_count_uint. Qed.

Lemma is_ws_hex_char (d : N) : Decode.is_ws (hex_char d) = false.
Proof. unfold Decode.is_ws, hex_char. destruct (N.ltb_spec d 10); lia. Qed.

Lemma ws_count_u_escape (n : N) : ws_count (u_escape n) = 0%nat.
Proof.
  unfold u_escape, ws_count. cbn [filter].
  rewrite !is_ws_hex_char. reflexivity.
Qed.

(** An escaped character holds a whitespace character only when it is
    a space, which is written as it is. *)
Lemma ws_count_escape_char (c : N) :
  ws_count (escape_char c) = spaces [c].
Proof.
  unfold escape_char, spaces. cbn [filter].
  repeat match goal with
         | |- context [if ?b then _ else _] => destruct b eqn:?
         end;
    rewrite ?ws_count_app, ?ws_count_u_escape;
    try reflexivity; try lia.
  - unfold ws_count. cbn [filter]. unfold Decode.is_ws.
    replace (c =? 9) with false by lia. replace (c =? 10) with false by lia.
    replace (c =? 13) with false by lia.
    rewrite (N.eqb_sym c 32). rewrite Heqb2. reflexivity.
  - unfold ws_count. cbn [filter]. unfold Decode.is_ws.
    replace (c =? 9) with false by lia. replace (c =? 10) with false by lia.
    replace (c =? 13) with false by lia.
    rewrite (N.eqb_sym c 32). rewrite Heqb2. reflexivity.
Qed.

Lemma ws_count_basestring (x : pystr) :
  ws_count (encode_basestring_ascii x) = spaces x.
Proof.
  unfold encode_basestring_ascii. rewrite ws_count_app.
  change (ws_count [34]) with 0%nat. rewrite Nat.add_0_r.
  change (ws_count (34 :: flat_map escape_char x))
    with (ws_count (flat_map escape_char x)).
  induction x as [|c x IH]; trivial.
  cbn [flat_map]. rewrite ws_count_app, IH, ws_count_escape_char.
  change (c :: x) with ([c] ++ x). now rewrite spaces_app.
Qed.

Lemma ws_count_join (parts : list pystr) :
  ws_count (join (str ",") parts) = list_sum (map ws_count parts).
Proof.
  induction parts as [|p ps IH]; trivial.
  destruct ps as [|q ps].
  - cbn [join map list_sum fold_right]. lia.
  - change (join (str ",") (p :: q :: ps))
      with (p ++ str "," ++ join (str ",") (q :: ps)).
    rewrite !ws_count_app, IH. reflexivity.
Qed.

(** The compact form: serialization inserts no whitespace, the only
    whitespace in the text is the spaces of the event's own strings. *)
Lemma json_dumps_compact (v : pyval) : ws_count (json_dumps v) = spaces_in v.
Proof.
  induction v as [ |b|z|x|l IH|d IH] using pyval_induction;
    cbn [json_dumps spaces_in].
  - reflexivity.
  - now destruct b.
  - apply ws_count_int.
  - apply ws_count_basestring.
  - rewrite !ws_count_app, ws_count_join, map_map.
    change (ws_count (str "[")) with 0%nat.
    change (ws_count (str "]")) with 0%nat.
    rewrite Nat.add_0_r, Nat.add_0_l. f_equal.
    induction IH as [|w l Hw _ IHl]; cbn [map]; congruence.
  - rewrite !ws_count_app, ws_count_join, map_map.
    change (ws_count (str "{")) with 0%nat.
    change (ws_count (str "}")) with 0%nat.
    rewrite Nat.add_0_r, Nat.add_0_l. f_equal.
    induction IH as [|[k w] l Hw _ IHl]; cbn [map]; trivial.
    rewrite IHl. f_equal. cbn [fst snd] in *.
    rewrite !ws_count_app, ws_count_basestring, Hw. reflexivity.
Qed.

(** C4. The steps of [encode_event], in order: the compact JSON text,
    its gzip member, the base64 text of the member with [+] and [/]
    substituted and the trailing [=] stripped. *)
Theorem encode_event_steps deflate clock event :
  clock < 2 ^ 32 ->
  let json_str := json_dumps event in
  let data := ascii_bytes json_str in
  let compressed := gzip_bytes deflate clock data in
  let b64 := ascii_str (b64encode compressed) in
  let url_safe := rstrip 61 (replace 47 95 (replace 43 45 b64)) in
  encode_event deflate clock event = Ok url_safe
  /\ ws_count json_str = spaces_in event
  /\ encode_utf8 json_str = Ok data
  /\ gzip_compress deflate clock data = Ok compressed
  /\ Forall (fun c => c <> 43 /\ c <> 47 /\ c <> 61) url_safe
  /\ Decode.restore_b64 url_safe = b64.
Proof.
  intros H. cbv zeta. repeat split.
  - apply (encode_event_ok _ _ H).
  - apply json_dumps_compact.
  - apply encode_utf8_ascii, printable_ascii, json_dumps_printable.
  - apply (gzip_compress_ok _ _ H).
  - eapply Forall_impl; [|apply token_chars].
    intros c Hc. cbv beta in Hc. unfold is_token_char in Hc. lia.
  - apply restore_b64_token.
Qed.

Lemma encode_event_steps_witness :
  encode_event Stored.deflate 1700000000 sample_event
  = Ok (rstrip 61
          (replace 47 95
             (replace 43 45
                (ascii_str
                   (b64encode
                      (gzip_bytes Stored.deflate 1700000000
                         (ascii_bytes (json_dumps sample_event)))))))).
Proof.
  apply (@encode_event_steps Stored.deflate 1700000000 sample_event).
  reflexivity.
Defined.

(** ** The calendar *)

Section Calendar.

Local Open Scope Z_scope.








End Calendar.

(** ** Timestamps and their order *)

Section Timestamps.

Local Open Scope Z_scope.

Lemma pystr_eqb_eq (a b : pystr) : pystr_eqb a b = true <-> a = b.
Proof.
  unfold pystr_eqb. destruct (list_eq_dec N.eq_dec a b); split;
    intros; congruence.
Qed.

Lemma pystr_eqb_refl (a : pystr) : pystr_eqb a a = true.
Proof. now apply pystr_eqb_eq. Qed.

Lemma pystr_eqb_neq (a b : pystr) : pystr_eqb a b = false <-> a <> b.
Proof.
  unfold pystr_eqb. destruct (list_eq_dec N.eq_dec a b); split;
    intros; congruence.
Qed.













End Timestamps.

(** ** Dicts *)

Lemma dict_get_error (d : pydict) (k : pystr) (e : pyerror) :
  dict_get d k = Raise e -> e = KeyError k.
Proof.
  induction d as [|[k' v] d IH]; cbn [dict_get].
  - intros E. now injection E.
  - destruct (pystr_eqb k' k); [discriminate | exact IH].
Qed.

Lemma dict_get_missing (d : pydict) (k : pystr) :
  has_key d k = false <-> dict_get d k = Raise (KeyError k).
Proof.
  induction d as [|[k' v] d IH]; cbn [dict_get has_key existsb fst].
  - tauto.
  - destruct (pystr_eqb k' k); cbn [orb]; [split; discriminate | exact IH].
Qed.

Lemma dict_get_present (d : pydict) (k : pystr) :
  has_key d k = true <-> exists v, dict_get d k = Ok v.
Proof.
  induction d as [|[k' v] d IH]; cbn [dict_get has_key existsb fst].
  - split; [discriminate | now intros [v ?]].
  - destruct (pystr_eqb k' k); cbn [orb]; [|exact IH].
    split; trivial. intros _. now exists v.
Qed.

Lemma dict_get_app (a b : pydict) (k : pystr) :
  dict_get (a ++ b) k
  = match dict_get a k with
    | Ok v => Ok v
    | Raise _ => dict_get b k
    end.
Proof.
  induction a as [|[k' v] a IH]; cbn [app dict_get]; trivial.
  now destruct (pystr_eqb k' k).
Qed.

Lemma dict_get_set (d : pydict) (k k' : pystr) (v : pyval) :
  dict_get (dict_set d k v) k'
  = if pystr_eqb k k' then Ok v else dict_get d k'.
Proof.
  induction d as [|[k0 v0] d IH]; cbn [dict_set dict_get].
  - destruct (pystr_eqb k k') eqn:E; trivial.
  - destruct (pystr_eqb k0 k) eqn:E0; cbn [dict_get].
    + apply pystr_eqb_eq in E0. subst k0.
      now destruct (pystr_eqb k k').
    + destruct (pystr_eqb k0 k') eqn:E1.
      * apply pystr_eqb_eq in E1. subst k0.
        now rewrite (proj2 (pystr_eqb_neq k k'))
          by (intros ->; now rewrite pystr_eqb_refl in E0).
      * exact IH.
Qed.

(** In a dict display the last item with a given key wins. *)
Lemma dict_get_fold (items : list (pystr * pyval)) (d : pydict) (k : pystr) :
  dict_get (fold_left (fun d kv => dict_set d (fst kv) (snd kv)) items d) k
  = match dict_get (rev items) k with
    | Ok v => Ok v
    | Raise _ => dict_get d k
    end.
Proof.
  revert d. induction items as [|[k0 v0] items IH]; intros d;
    cbn [fold_left rev fst snd].
  - reflexivity.
  - rewrite IH, dict_get_app, dict_get_set. cbn [dict_get].
    destruct (dict_get (rev items) k); trivial.
    now destruct (pystr_eqb k0 k).
Qed.

Lemma dict_get_of_items (items : list (pystr * pyval)) (k : pystr) :
  dict_get (dict_of_items items) k = dict_get (rev items) k.
Proof.
  unfold dict_of_items. rewrite dict_get_fold.
  destruct (dict_get (rev items) k) eqn:E; trivial.
  cbn [dict_get]. now rewrite (dict_get_error _ _ E).
Qed.

Lemma has_key_app (a b : pydict) (k : pystr) :
  has_key (a ++ b) k = has_key a k || has_key b k.
Proof. unfold has_key. apply existsb_app. Qed.

Lemma has_key_rev (d : pydict) (k : pystr) : has_key (rev d) k = has_key d k.
Proof.
  induction d as [|[k' v] d IH]; trivial.
  cbn [rev]. rewrite has_key_app, IH. cbn [has_key existsb fst].
  rewrite orb_false_r. apply orb_comm.
Qed.

(** Reading a dict with pairwise different keys from either end gives
    the same. *)
Lemma dict_get_rev (d : pydict) (k : pystr) :
  unique_keys d = true -> dict_get (rev d) k = dict_get d k.
Proof.
  induction d as [|[k' v] d IH]; trivial.
  cbn [unique_keys rev]. intros U.
  apply andb_prop in U. destruct U as [U1 U2].
  rewrite dict_get_app, (IH U2). cbn [dict_get].
  destruct (pystr_eqb k' k) eqn:E.
  - apply pystr_eqb_eq in E. subst k'.
    apply negb_true_iff in U1. apply dict_get_missing in U1.
    now rewrite U1.
  - destruct (dict_get d k) eqn:G; trivial.
    now rewrite (dict_get_error _ _ G).
Qed.

Lemma has_key_without_action (t : pydict) (k : pystr) :
  has_key (without_action t) k
  = negb (pystr_eqb k (str "action")) && has_key t k.
Proof.
  induction t as [|[k' v] t IH]; cbn [without_action filter has_key existsb fst].
  - now rewrite andb_false_r.
  - fold (without_action t). fold (has_key t k).
    destruct (pystr_eqb k' (str "action")) eqn:E; cbn [negb].
    + fold (has_key (without_action t) k). rewrite IH.
      apply pystr_eqb_eq in E. subst k'.
      destruct (pystr_eqb k (str "action")) eqn:E'; cbn [negb andb].
      * reflexivity.
      * rewrite (proj2 (pystr_eqb_neq (str "action") k)); trivial.
        intros Q. rewrite <- Q, pystr_eqb_refl in E'. discriminate.
    + cbn [has_key existsb fst]. fold (has_key (without_action t) k).
      rewrite IH.
      destruct (pystr_eqb k' k) eqn:E'; cbn [orb].
      * apply pystr_eqb_eq in E'. subst k'. now rewrite E.
      * reflexivity.
Qed.

Lemma dict_get_without_action (t : pydict) (k : pystr) :
  pystr_eqb k (str "action") = false ->
  dict_get (without_action t) k = dict_get t k.
Proof.
  intros N. induction t as [|[k' v] t IH]; trivial.
  cbn [without_action filter fst]. fold (without_action t).
  destruct (pystr_eqb k' (str "action")) eqn:E; cbn [negb dict_get].
  - apply pystr_eqb_eq in E. subst k'.
    rewrite (proj2 (pystr_eqb_neq (str "action") k)); trivial.
    intros Q. rewrite <- Q, pystr_eqb_refl in N. discriminate.
  - now rewrite IH.
Qed.

Lemma unique_keys_without_action (t : pydict) :
  unique_keys t = true -> unique_keys (without_action t) = true.
Proof.
  induction t as [|[k v] t IH]; trivial.
  cbn [unique_keys without_action filter fst]. fold (without_action t).
  intros U. apply andb_prop in U. destruct U as [U1 U2].
  destruct (pystr_eqb k (str "action")); cbn [negb]; [now apply IH|].
  cbn [unique_keys]. rewrite (IH U2), andb_true_r.
  rewrite has_key_without_action.
  apply negb_true_iff in U1. rewrite U1. now rewrite andb_false_r.
Qed.

(** The dict that [generate_event] builds for an action: a key of the
    template, other than [action], overrides the builder's item; the
    builder's items are read for the other keys. *)
Lemma action_dict_get (base t : pydict) (k : pystr) :
  unique_keys t = true -> unique_keys base = true ->
  dict_get (dict_of_items (base ++ without_action t)) k
  = if negb (pystr_eqb k (str "action")) && has_key t k
    then dict_get t k else dict_get base k.
Proof.
  intros Ut Ub.
  rewrite dict_get_of_items, rev_app_distr, dict_get_app.
  rewrite (dict_get_rev _ k (unique_keys_without_action t Ut)).
  rewrite (dict_get_rev _ k Ub).
  rewrite <- has_key_without_action.
  destruct (has_key (without_action t) k) eqn:H.
  - destruct (proj1 (dict_get_present _ _) H) as [v Hv]. rewrite Hv.
    rewrite has_key_without_action in H. apply andb_prop in H.
    destruct H as [H1 _]. apply negb_true_iff in H1.
    now rewrite <- (dict_get_without_action t k H1).
  - apply dict_get_missing in H. now rewrite H.
Qed.

(** ** The builders *)

Section Builders.

Local Open Scope Z_scope.

Lemma dict_get_head (k : pystr) (v : pyval) (d : pydict) :
  dict_get ((k, v) :: d) k = Ok v.
Proof. cbn [dict_get]. now rewrite pystr_eqb_refl. Qed.

Lemma dict_get_skip (k' k : pystr) (v : pyval) (d : pydict) :
  pystr_eqb k' k = false -> dict_get ((k', v) :: d) k = dict_get d k.
Proof. intros E. cbn [dict_get]. now rewrite E. Qed.

Lemma offset_ok_seconds (start : Datetime.datetime) (rel : Z) :
  offset_ok start rel = true ->
  Datetime.timedelta_seconds (PInt rel) = Ok (rel * Datetime.US_PER_SECOND)
  /\ Datetime.add start (rel * Datetime.US_PER_SECOND) = Ok (after start rel)
  /\ in_calendar (after start rel).
Proof.
  unfold offset_ok, Datetime.timedelta_seconds, Datetime.timedelta_new,
    Datetime.add, in_calendar, after.
  intros H. repeat (apply andb_prop in H; destruct H as [H ?]).
  rewrite H, H0, H1, H2. cbn [andb]. repeat split; lia.
Qed.

Lemma relative_time_get (t : pydict) (rel : Z) :
  relative_time t = Some rel ->
  dict_get t (str "relativeTime") = Ok (PInt rel).
Proof.
  unfold relative_time.
  destruct (dict_get t (str "relativeTime")) as [[ | | z | | | ]|];
    intros E; try discriminate. now injection E as ->.
Qed.

(** The loop of [generate_event] on well-formed action templates: it
    returns one action per template, in the order of the templates; the
    action at index [n] has the id [action-<i+n+1>], the time [rel]
    seconds after the start, the text of its template and the
    [relativeTime] of its template. *)
Lemma build_actions_ok (start : Datetime.datetime)
    (templates : list pydict) (i : Z) :
  forallb (action_template_ok start) templates = true ->
  exists timeline,
    build_actions start i templates = Ok timeline
    /\ List.length timeline = List.length templates
    /\ forall (n : nat) (t : pydict),
         nth_error templates n = Some t ->
         exists action rel,
           nth_error timeline n = Some (PDict action)
           /\ relative_time t = Some rel
           /\ dict_get action (str "id")
              = Ok (PStr (str "action-" ++ int_repr (i + Z.of_nat n + 1)))
           /\ dict_get action (str "time")
              = Ok (PStr (Datetime.strftime (after start rel)))
           /\ dict_get action (str "action") = dict_get t (str "action")
           /\ dict_get action (str "relativeTime") = Ok (PInt rel).
Proof.
  revert i. induction templates as [|t templates IH]; intros i H.
  - exists []. repeat split; trivial. now intros [|n] t.
  - cbn [forallb] in H. apply andb_prop in H. destruct H as [Ht Hr].
    destruct (IH (i + 1) Hr) as (rest & Er & Lr & Pr).
    unfold action_template_ok, action_template_wf in Ht.
    repeat (apply andb_prop in Ht; destruct Ht as [Ht ?]).
    rename Ht into U, H into Hrel, H1 into Ntime, H2 into Nid, H3 into Hact.
    destruct (relative_time t) as [rel|] eqn:R; [|discriminate].
    destruct (offset_ok_seconds _ _ Hrel) as (Td & Ad & _).
    destruct (proj1 (dict_get_present _ _) Hact) as [text Htext].
    apply negb_true_iff in Nid, Ntime.
    cbn [build_actions].
    rewrite (relative_time_get _ R). cbn [bind].
    rewrite Td. cbn [bind]. rewrite Ad. cbn [bind].
    rewrite Htext. cbn [bind]. rewrite Er. cbn [bind].
    eexists. split; [reflexivity|]. split; [cbn [List.length]; congruence|].
    intros [|n] t' Hn.
    + cbn [nth_error] in Hn. injection Hn as <-.
      eexists. exists rel. split; [reflexivity|]. split; [exact R|].
      rewrite !action_dict_get by (trivial; reflexivity).
      rewrite Nid, Ntime, Hact.
      rewrite (proj2 (dict_get_present _ _)
                 (ex_intro _ (PInt rel) (relative_time_get _ R))).
      cbn [andb negb].
      change (pystr_eqb (str "action") (str "action")) with true.
      change (pystr_eqb (str "relativeTime") (str "action")) with false.
      change (pystr_eqb (str "id") (str "action")) with false.
      change (pystr_eqb (str "time") (str "action")) with false.
      cbn [andb negb].
      rewrite Z.add_0_r.
      repeat split.
      * now rewrite Htext.
      * now apply relative_time_get.
    + cbn [nth_error] in Hn.
      destruct (Pr n t' Hn) as (action & rel' & P1 & P2 & P3 & P4 & P5 & P6).
      exists action, rel'. cbn [nth_error].
      replace (i + Z.of_nat (S n) + 1) with (i + 1 + Z.of_nat n + 1) by lia.
      repeat split; trivial.
Qed.

End Builders.

Section BuilderClaims.

Local Open Scope Z_scope.

Lemma build_event_ok (tz : pystr) (t : template) (start : Datetime.datetime)
    (timeline : list pyval) :
  build_actions start 0 (actions t) = Ok timeline ->
  build_event tz t start
  = Ok (event_dict (title t) (description t) (Datetime.strftime start) tz
          timeline).
Proof. intros E. unfold build_event. now rewrite E. Qed.

(** C5. On a template in the shape of section 4.1, the Builder returns
    an event whose timeline has one action per action template, in the
    order of the templates: the action at index [n] has the id
    [action-<n+1>], the time [startTime + relativeTime] written as
    [YYYY-MM-DDTHH:MM:SSZ], and the text of the template at index [n]. *)
Theorem build_event_ids_and_times (tz : pystr) (t : template)
    (start : Datetime.datetime) :
  forallb (action_template_ok start) (actions t) = true ->
  exists timeline,
    build_event tz t start
    = Ok (event_dict (title t) (description t) (Datetime.strftime start) tz
            timeline)
    /\ List.length timeline = List.length (actions t)
    /\ forall (n : nat) (action_template : pydict),
         nth_error (actions t) n = Some action_template ->
         exists action rel,
           nth_error timeline n = Some (PDict action)
           /\ relative_time action_template = Some rel
           /\ dict_get action (str "id")
              = Ok (PStr (str "action-" ++ int_repr (Z.of_nat n + 1)))
           /\ dict_get action (str "time")
              = Ok (PStr (Datetime.strftime (after start rel)))
           /\ dict_get action (str "action")
              = dict_get action_template (str "action").
Proof.
  intros H.
  destruct (build_actions_ok start (actions t) 0 H) as (timeline & E & L & P).
  exists timeline. split; [now apply build_event_ok|]. split; [exact L|].
  intros n a Hn.
  destruct (P n a Hn) as (action & rel & P1 & P2 & P3 & P4 & P5 & _).
  exists action, rel. repeat split; trivial.
Qed.

Lemma build_event_ids_and_times_witness :
  exists timeline,
    build_event (str "America/Denver") scenario_template
      (after sample_now 120)
    = Ok (event_dict (str "Scenario") (str "Two actions")
            (str "2026-11-03T16:48:10Z") (str "America/Denver") timeline)
    /\ List.length timeline = 2%nat.
Proof.
  destruct (@build_event_ids_and_times (str "America/Denver")
              scenario_template (after sample_now 120) eq_refl)
    as (timeline & E & L & _).
  exists timeline. split; [exact E | exact L].
Defined.

(** The loop of [generate_test_event]: the same ids, and times one
    interval apart. *)
Lemma test_actions_ok (start : Datetime.datetime) (interval : Z)
    (texts : list (pystr * pystr)) (i : Z) :
  (forall n : nat, (n < List.length texts)%nat ->
     offset_ok start ((i + Z.of_nat n) * interval) = true) ->
  exists timeline,
    test_actions start interval i texts = Ok timeline
    /\ List.length timeline = List.length texts
    /\ forall (n : nat) (text style : pystr),
         nth_error texts n = Some (text, style) ->
         exists action,
           nth_error timeline n = Some (PDict action)
           /\ dict_get action (str "id")
              = Ok (PStr (str "action-" ++ int_repr (i + Z.of_nat n + 1)))
           /\ dict_get action (str "time")
              = Ok (PStr (Datetime.strftime
                            (after start ((i + Z.of_nat n) * interval))))
           /\ dict_get action (str "action") = Ok (PStr text).
Proof.
  revert i. induction texts as [|[text style] texts IH]; intros i H.
  - exists []. repeat split; trivial. now intros [|n].
  - assert (Hr : forall n : nat, (n < List.length texts)%nat ->
                 offset_ok start ((i + 1 + Z.of_nat n) * interval) = true).
    { intros n Hn. specialize (H (S n)). cbn [List.length] in H.
      replace (i + 1 + Z.of_nat n) with (i + Z.of_nat (S n)) by lia.
      apply H. lia. }
    destruct (IH (i + 1) Hr) as (rest & Er & Lr & Pr).
    assert (H0 : offset_ok start (i * interval) = true).
    { specialize (H O). cbn [List.length] in H. rewrite Z.add_0_r in H.
      apply H. lia. }
    destruct (offset_ok_seconds _ _ H0) as (Td & Ad & _).
    cbn [test_actions]. rewrite Td. cbn [bind]. rewrite Ad. cbn [bind].
    rewrite Er. cbn [bind].
    eexists. split; [reflexivity|]. split; [cbn [List.length]; congruence|].
    intros [|n] text' style' Hn.
    + cbn [nth_error] in Hn. injection Hn as <- <-.
      eexists. split; [reflexivity|].
      rewrite !dict_get_of_items. cbn [rev app]. rewrite !Z.add_0_r.
      repeat split.
    + cbn [nth_error] in Hn.
      destruct (Pr n text' style' Hn) as (action & P1 & P2 & P3 & P4).
      exists action. cbn [nth_error].
      replace (i + Z.of_nat (S n)) with (i + 1 + Z.of_nat n) by lia.
      repeat split; trivial.
Qed.

(** [generate_test_event], on a clock reading and arguments that keep
    the six actions inside the calendar. *)
Lemma generate_test_event_ids_and_times (now : Datetime.datetime)
    (minutes interval : Z) :
  offset_ok now (minutes * 60) = true ->
  (forall n : nat, (n < 6)%nat ->
     offset_ok (after now (minutes * 60)) (Z.of_nat n * interval) = true) ->
  exists timeline,
    generate_test_event now minutes interval
    = Ok (event_dict (str "Test Flash Mob")
            (str "A test event for Conductor Mobile development")
            (Datetime.strftime (after now (minutes * 60)))
            (str "America/New_York") timeline)
    /\ List.length timeline = 6%nat
    /\ forall (n : nat) (text style : pystr),
         nth_error action_texts n = Some (text, style) ->
         exists action,
           nth_error timeline n = Some (PDict action)
           /\ dict_get action (str "id")
              = Ok (PStr (str "action-" ++ int_repr (Z.of_nat n + 1)))
           /\ dict_get action (str "time")
              = Ok (PStr (Datetime.strftime
                            (after (after now (minutes * 60))
                               (Z.of_nat n * interval))))
           /\ dict_get action (str "action") = Ok (PStr text).
Proof.
  intros Hm Ha.
  unfold offset_ok in Hm.
  repeat (apply andb_prop in Hm; destruct Hm as [Hm ?]).
  unfold generate_test_event, Datetime.timedelta_minutes,
    Datetime.timedelta_new.
  replace (minutes * 60 * Datetime.US_PER_SECOND)
    with (minutes * 60 * Datetime.US_PER_SECOND) in * by ring.
  rewrite Hm, H1. cbn [andb bind].
  unfold Datetime.add. rewrite H0, H. cbn [andb bind].
  fold (after now (minutes * 60)).
  destruct (test_actions_ok (after now (minutes * 60)) interval action_texts 0)
    as (timeline & E & L & P).
  { intros n Hn. rewrite Z.add_0_l. now apply Ha. }
  rewrite E. cbn [bind].
  exists timeline. split; [reflexivity|]. split; [exact L|].
  intros n text style Hn.
  destruct (P n text style Hn) as (action & P1 & P2 & P3 & P4).
  exists action. rewrite !Z.add_0_l in *. repeat split; trivial.
Qed.

End BuilderClaims.

Section BuilderInvariants.

Local Open Scope Z_scope.

Lemma Forall2_of_nth_error {A B} (R : A -> B -> Prop) (l1 : list A)
    (l2 : list B) :
  List.length l2 = List.length l1 ->
  (forall n a, nth_error l1 n = Some a ->
     exists b, nth_error l2 n = Some b /\ R a b) ->
  Forall2 R l1 l2.
Proof.
  revert l2. induction l1 as [|a l1 IH]; intros [|b l2] L H;
    try discriminate L; constructor.
  - destruct (H O a eq_refl) as (b' & E & HR). cbn in E. now injection E as <-.
  - apply IH; [now injection L|].
    intros n a' Hn. exact (H (S n) a' Hn).
Qed.

Lemma build_actions_built (start : Datetime.datetime)
    (templates : list pydict) (i : Z) :
  forallb (action_template_ok start) templates = true ->
  exists timeline,
    build_actions start i templates = Ok timeline
    /\ Forall2 (built_from start i) templates timeline.
Proof.
  intros H.
  destruct (build_actions_ok start templates i H) as (timeline & E & L & P).
  exists timeline. split; [exact E|].
  apply Forall2_of_nth_error; [exact L|].
  intros n t Hn.
  destruct (P n t Hn) as (action & rel & P1 & P2 & _ & P4 & _ & P6).
  exists (PDict action). split; [exact P1|].
  exists action, rel. repeat split; trivial.
Qed.









End BuilderInvariants.

Section RelativeTime.

Local Open Scope Z_scope.

Lemma timedelta_new_ok (us : Z) (td : Datetime.timedelta) :
  Datetime.timedelta_new us = Ok td ->
  td = us
  /\ ((-999999999 <=? us / Datetime.US_PER_DAY)
      && (us / Datetime.US_PER_DAY <=? 999999999)) = true.
Proof.
  unfold Datetime.timedelta_new.
  destruct ((-999999999 <=? us / Datetime.US_PER_DAY)
            && (us / Datetime.US_PER_DAY <=? 999999999));
    intros E; [|discriminate]. injection E as <-. now split.
Qed.

Lemma datetime_add_ok (d r : Datetime.datetime) (td : Datetime.timedelta) :
  Datetime.add d td = Ok r ->
  r = d + td
  /\ ((0 <? (d + td) / Datetime.US_PER_DAY)
      && ((d + td) / Datetime.US_PER_DAY <=? Datetime.MAXORDINAL)) = true.
Proof.
  unfold Datetime.add. cbv zeta.
  destruct ((0 <? (d + td) / Datetime.US_PER_DAY)
            && ((d + td) / Datetime.US_PER_DAY <=? Datetime.MAXORDINAL));
    intros E; [|discriminate]. injection E as <-. now split.
Qed.

(** When the loop returns, every offset was a date of the calendar. *)
Lemma build_actions_range (start : Datetime.datetime)
    (templates : list pydict) (i : Z) (timeline : list pyval) :
  forallb action_template_wf templates = true ->
  build_actions start i templates = Ok timeline ->
  forallb (action_template_ok start) templates = true.
Proof.
  revert i timeline.
  induction templates as [|t templates IH]; intros i timeline W E; trivial.
  cbn [forallb] in *. apply andb_prop in W. destruct W as [Wt Wr].
  pose proof Wt as Wt'. unfold action_template_wf in Wt'.
  apply andb_prop in Wt'. destruct Wt' as [_ Wt'].
  destruct (relative_time t) as [rel|] eqn:R; [|discriminate].
  cbn [build_actions] in E. rewrite (relative_time_get _ R) in E.
  cbn [bind Datetime.timedelta_seconds] in E.
  destruct (Datetime.timedelta_new (rel * Datetime.US_PER_SECOND))
    as [td|] eqn:Td; [|discriminate].
  destruct (timedelta_new_ok _ Td) as [-> C1].
  cbn [bind] in E.
  destruct (Datetime.add start (rel * Datetime.US_PER_SECOND))
    as [at_|] eqn:Ad; [|discriminate].
  destruct (datetime_add_ok _ _ Ad) as [-> C2].
  cbn [bind] in E.
  destruct (dict_get t (str "action")); [|discriminate]. cbn [bind] in E.
  destruct (build_actions start (i + 1) templates) as [rest|] eqn:Er;
    [|discriminate].
  apply andb_true_intro. split; [|exact (IH _ _ Wr Er)].
  unfold action_template_ok. rewrite Wt, R. cbn [andb].
  unfold offset_ok. apply andb_prop in C1, C2.
  destruct C1 as [-> ->], C2 as [-> ->]. reflexivity.
Qed.

Lemma built_retains (start : Datetime.datetime) (i : Z)
    (templates : list pydict) (timeline : list pyval) :
  Forall2 (built_from start i) templates timeline ->
  Forall2 retains_relative_time templates timeline.
Proof.
  apply Forall2_impl.
  intros t a (action & rel & -> & R & _ & G). now exists action, rel.
Qed.

(** The templates of [EVENTS] are in the shape of section 4.1, with
    relative times between 0 and 150 seconds. *)
Lemma events_get_wf (name : pystr) (t : template) :
  events_get EVENTS name = Ok t ->
  forallb action_template_wf (actions t) = true
  /\ relative_times_within 0 150 (actions t) = true.
Proof.
  unfold EVENTS. cbn [events_get].
  destruct (pystr_eqb (str "inaugural") name).
  - intros E. injection E as <-. split; vm_compute; reflexivity.
  - destruct (pystr_eqb (str "diagnostic") name); [|discriminate].
    intros E. injection E as <-. split; vm_compute; reflexivity.
Qed.

Lemma generate_event_inv (now : Datetime.datetime) (name : pystr)
    (minutes : Z) (ev : pyval) :
  generate_event now name minutes = Ok ev ->
  exists t timeline,
    events_get EVENTS name = Ok t
    /\ offset_ok now (minutes * 60) = true
    /\ build_actions (after now (minutes * 60)) 0 (actions t) = Ok timeline
    /\ ev = event_dict (title t) (description t)
              (Datetime.strftime (after now (minutes * 60)))
              (str "America/Denver") timeline.
Proof.
  unfold generate_event. intros E.
  destruct (events_get EVENTS name) as [t|]; [|discriminate].
  cbn [bind] in E. unfold Datetime.timedelta_minutes in E.
  destruct (Datetime.timedelta_new (minutes * 60 * Datetime.US_PER_SECOND))
    as [td|] eqn:Td; [|discriminate].
  destruct (timedelta_new_ok _ Td) as [-> C1]. cbn [bind] in E.
  destruct (Datetime.add now (minutes * 60 * Datetime.US_PER_SECOND))
    as [start|] eqn:Ad; [|discriminate].
  destruct (datetime_add_ok _ _ Ad) as [-> C2]. cbn [bind] in E.
  fold (after now (minutes * 60)) in E.
  unfold build_event in E.
  destruct (build_actions (after now (minutes * 60)) 0 (actions t))
    as [timeline|] eqn:B; [|discriminate].
  cbn [bind] in E. injection E as <-.
  exists t, timeline. repeat split; trivial.
  unfold offset_ok. apply andb_prop in C1, C2.
  destruct C1 as [-> ->], C2 as [-> ->]. reflexivity.
Qed.

(** The loop of [generate_pantheon_event] stores [time] and leaves the
    other items of each action as they are. *)
Lemma set_times_retains (start : Datetime.datetime) (actions : list pydict)
    (timeline : list pyval) (k : pystr) :
  pystr_eqb (str "time") k = false ->
  set_times start actions = Ok timeline ->
  Forall2 (fun a b => exists d, b = PDict d /\ dict_get d k = dict_get a k)
    actions timeline.
Proof.
  intros Hk. revert timeline.
  induction actions as [|a actions IH]; intros timeline E.
  - cbn in E. injection E as <-. constructor.
  - cbn [set_times] in E.
    destruct (dict_get a (str "relativeTime")); [|discriminate].
    cbn [bind] in E.
    destruct (Datetime.timedelta_seconds a0); [|discriminate].
    cbn [bind] in E.
    destruct (Datetime.add start a1); [|discriminate]. cbn [bind] in E.
    destruct (set_times start actions) as [rest|]; [|discriminate].
    cbn [bind] in E. injection E as <-. constructor; [|now apply IH].
    eexists. split; [reflexivity|]. now rewrite dict_get_set, Hk.
Qed.

Lemma same_relative_time_retains (actions : list pydict)
    (timeline : list pyval) :
  Forall2 (fun a b => exists d, b = PDict d
                      /\ dict_get d (str "relativeTime")
                         = dict_get a (str "relativeTime"))
    actions timeline ->
  Forall (fun a => exists rel, relative_time a = Some rel) actions ->
  Forall2 retains_relative_time actions timeline.
Proof.
  induction 1 as [|a b l l' (d & -> & G) _ IH]; intros R; constructor.
  - destruct (Forall_inv R) as [rel Hr].
    exists d, rel. repeat split; trivial.
    rewrite G. now apply relative_time_get.
  - apply IH. exact (Forall_inv_tail R).
Qed.

Lemma generate_pantheon_event_inv (now : Datetime.datetime) (minutes : Z)
    (ev : pyval) :
  generate_pantheon_event now minutes = Ok ev ->
  exists timeline,
    set_times (after now (minutes * 60)) pantheon_actions = Ok timeline
    /\ ev = event_dict (str "Pantheon Inaugural")
              (str "Your AI assistants present: a demonstration of synchronized coordination.")
              (Datetime.strftime (after now (minutes * 60)))
              (str "America/Denver") timeline.
Proof.
  unfold generate_pantheon_event. intros E.
  unfold Datetime.timedelta_minutes in E.
  destruct (Datetime.timedelta_new (minutes * 60 * Datetime.US_PER_SECOND))
    as [td|] eqn:Td; [|discriminate].
  destruct (timedelta_new_ok _ Td) as [-> C1]. cbn [bind] in E.
  destruct (Datetime.add now (minutes * 60 * Datetime.US_PER_SECOND))
    as [start|] eqn:Ad; [|discriminate].
  destruct (datetime_add_ok _ _ Ad) as [-> C2]. cbn [bind] in E.
  fold (after now (minutes * 60)) in E.
  destruct (set_times (after now (minutes * 60)) pantheon_actions)
    as [timeline|] eqn:B; [|discriminate].
  cbn [bind] in E. injection E as <-.
  now exists timeline.
Qed.

(** *** The text of a member occurs in the text of the value *)

Lemma occurs_in_refl (x : pystr) : occurs_in x x.
Proof. exists [], []. now rewrite List.app_nil_r. Qed.

Lemma occurs_in_trans (x y z : pystr) :
  occurs_in x y -> occurs_in y z -> occurs_in x z.
Proof.
  intros (a & b & ->) (c & d & ->).
  exists (c ++ a), (b ++ d). now rewrite <- !app_assoc.
Qed.

Lemma occurs_in_app_r (x a y : pystr) : occurs_in x y -> occurs_in x (a ++ y).
Proof.
  intros (b & c & ->). exists (a ++ b), c. now rewrite <- !app_assoc.
Qed.

Lemma occurs_in_app_l (x y a : pystr) : occurs_in x y -> occurs_in x (y ++ a).
Proof.
  intros (b & c & ->). exists b, (c ++ a). now rewrite <- !app_assoc.
Qed.

Lemma occurs_in_join (sep p : pystr) (parts : list pystr) :
  In p parts -> occurs_in p (join sep parts).
Proof.
  induction parts as [|q parts IH]; [contradiction|].
  intros [->|H].
  - destruct parts; [apply occurs_in_refl|].
    cbn [join]. apply occurs_in_app_l, occurs_in_refl.
  - destruct parts as [|r parts]; [contradiction|].
    change (join sep (q :: r :: parts))
      with (q ++ sep ++ join sep (r :: parts)).
    now apply occurs_in_app_r, occurs_in_app_r, IH.
Qed.

Lemma occurs_in_dict (k : pystr) (v : pyval) (d : pydict) :
  In (k, v) d -> occurs_in (json_member k v) (json_dumps (PDict d)).
Proof.
  intros H. cbn [json_dumps].
  apply occurs_in_app_r, occurs_in_app_l, occurs_in_join.
  apply in_map_iff. now exists (k, v).
Qed.

Lemma occurs_in_list (a : pyval) (l : list pyval) :
  In a l -> occurs_in (json_dumps a) (json_dumps (PList l)).
Proof.
  intros H. cbn [json_dumps].
  apply occurs_in_app_r, occurs_in_app_l, occurs_in_join.
  now apply in_map.
Qed.

Lemma occurs_in_member (x k : pystr) (v : pyval) :
  occurs_in x (json_dumps v) -> occurs_in x (json_member k v).
Proof. intros H. unfold json_member. now do 2 apply occurs_in_app_r. Qed.

Lemma dict_get_In (d : pydict) (k : pystr) (v : pyval) :
  dict_get d k = Ok v -> In (k, v) d.
Proof.
  induction d as [|[k' v'] d IH]; cbn [dict_get]; [discriminate|].
  destruct (pystr_eqb k' k) eqn:E.
  - apply pystr_eqb_eq in E. subst k'. intros Q. injection Q as ->. now left.
  - intros Q. right. now apply IH.
Qed.

(** The [relativeTime] an action retains is written into the JSON text
    of the event. *)
Lemma retained_in_text (title description start_time tz : pystr)
    (templates : list pydict) (timeline : list pyval) :
  Forall2 retains_relative_time templates timeline ->
  forall t rel,
    In t templates -> relative_time t = Some rel ->
    occurs_in (json_member (str "relativeTime") (PInt rel))
      (json_dumps (event_dict title description start_time tz timeline)).
Proof.
  intros F t rel Ht R.
  assert (A : exists action, In (PDict action) timeline
              /\ dict_get action (str "relativeTime") = Ok (PInt rel)).
  { induction F as [|t' a templates timeline Ha _ IH]; [contradiction|].
    destruct Ht as [->|Ht].
    - destruct Ha as (action & rel' & -> & R' & G).
      rewrite R in R'. injection R' as <-.
      exists action. split; [now left | exact G].
    - destruct (IH Ht) as (action & I & G).
      exists action. split; [now right | exact G]. }
  destruct A as (action & I & G).
  eapply occurs_in_trans; [apply (occurs_in_dict _ _ _ (dict_get_In _ _ G))|].
  eapply occurs_in_trans; [apply (occurs_in_list _ _ I)|].
  eapply occurs_in_trans;
    [apply (occurs_in_member (str "timeline")), occurs_in_refl|].
  apply occurs_in_dict. unfold event_dict.
  do 4 right. now left.
Qed.

(** C10. The actions of the events that [generate_event] and
    [generate_pantheon_event] return retain the [relativeTime] of their
    templates, and the JSON text that [encode_event] compresses holds it
    as a member of each action. *)
Theorem relative_time_retained (now : Datetime.datetime) (minutes : Z) :
  (forall name ev,
     generate_event now name minutes = Ok ev ->
     exists t timeline,
       events_get EVENTS name = Ok t
       /\ ev = event_dict (title t) (description t)
                 (Datetime.strftime (after now (minutes * 60)))
                 (str "America/Denver") timeline
       /\ Forall2 retains_relative_time (actions t) timeline
       /\ forall a rel,
            In a (actions t) -> relative_time a = Some rel ->
            occurs_in (json_member (str "relativeTime") (PInt rel))
              (json_dumps ev))
  /\ (forall ev,
        generate_pantheon_event now minutes = Ok ev ->
        exists timeline,
          ev = event_dict (str "Pantheon Inaugural")
                 (str "Your AI assistants present: a demonstration of synchronized coordination.")
                 (Datetime.strftime (after now (minutes * 60)))
                 (str "America/Denver") timeline
          /\ Forall2 retains_relative_time pantheon_actions timeline
          /\ forall a rel,
               In a pantheon_actions -> relative_time a = Some rel ->
               occurs_in (json_member (str "relativeTime") (PInt rel))
                 (json_dumps ev))
  /\ (forall deflate (clock : N) ev,
        (clock < 2 ^ 32)%N ->
        encode_event deflate clock ev
        = Ok (token_of
                (gzip_bytes deflate clock (ascii_bytes (json_dumps ev))))).
Proof.
  split; [|split].
  - intros name ev E.
    destruct (generate_event_inv _ _ _ E) as (t & timeline & G & _ & B & ->).
    destruct (events_get_wf _ G) as [W _].
    pose proof (build_actions_range _ _ _ W B) as K.
    destruct (build_actions_built _ _ 0 K) as (timeline' & B' & F).
    rewrite B in B'. injection B' as <-.
    apply built_retains in F.
    exists t, timeline. repeat split; trivial.
    now apply retained_in_text.
  - intros ev E.
    destruct (generate_pantheon_event_inv _ _ E) as (timeline & S & ->).
    assert (F : Forall2 retains_relative_time pantheon_actions timeline).
    { apply same_relative_time_retains.
      - exact (@set_times_retains _ _ _ (str "relativeTime") eq_refl S).
      - unfold pantheon_actions.
        repeat (constructor; [eexists; reflexivity|]). constructor. }
    exists timeline. repeat split; trivial.
    now apply retained_in_text.
  - intros deflate clock ev H. now apply encode_event_ok.
Qed.

Lemma relative_time_retained_witness :
  exists ev timeline,
    generate_event sample_now (str "diagnostic") 2 = Ok ev
    /\ Forall2 retains_relative_time
         (match events_get EVENTS (str "diagnostic") with
          | Ok t => actions t
          | Raise _ => []
          end) timeline
    /\ occurs_in (json_member (str "relativeTime") (PInt 150)) (json_dumps ev).
Proof.
  destruct (generate_event sample_now (str "diagnostic") 2) as [ev|] eqn:E;
    [|vm_compute in E; discriminate E].
  destruct (proj1 (relative_time_retained sample_now 2) _ _ E)
    as (t & timeline & G & -> & F & O).
  vm_compute in G. injection G as <-.
  eexists. exists timeline. split; [reflexivity|]. split; [exact F|].
  apply O with (a := [(str "relativeTime", PInt 150);
                      (str "action", PStr (str "Entering Standby Mode"));
                      (str "color", PStr (str "#607D8B"));
                      (str "icon", PStr [0x1f4a4]%N);
                      (str "style", PStr (str "normal"));
                      (str "hapticPattern", PStr (str "single"));
                      (str "noticeSeconds", PInt 5);
                      (str "countdownSeconds", PList [PInt 3; PInt 2; PInt 1])]).
  - do 5 right. now left.
  - reflexivity.
Defined.

End RelativeTime.

Section Validation.

Local Open Scope Z_scope.







End Validation.

(** * Further properties of the generators *)

Section Generators.

Local Open Scope Z_scope.

(** ** generate_test_event *)

Lemma test_actions_built (start : Datetime.datetime) (interval : Z)
    (texts : list (pystr * pystr)) (i : Z) (timeline : list pyval) :
  test_actions start interval i texts = Ok timeline ->
  Forall2 (fun ts a => exists n : nat,
             a = test_action start interval (i + Z.of_nat n) (fst ts) (snd ts)
             /\ offset_ok start ((i + Z.of_nat n) * interval) = true)
    texts timeline
  /\ forall n ts, nth_error texts n = Some ts ->
       nth_error timeline n
       = Some (test_action start interval (i + Z.of_nat n) (fst ts) (snd ts)).
Proof.
  revert i timeline.
  induction texts as [|[text style] texts IH]; intros i timeline E.
  - cbn in E. injection E as <-. split; [constructor | now intros [|n]].
  - cbn [test_actions] in E.
    cbn [Datetime.timedelta_seconds] in E.
    destruct (Datetime.timedelta_new (i * interval * Datetime.US_PER_SECOND))
      as [td|] eqn:Td; [|discriminate].
    destruct (timedelta_new_ok _ Td) as [-> C1]. cbn [bind] in E.
    destruct (Datetime.add start (i * interval * Datetime.US_PER_SECOND))
      as [at_|] eqn:Ad; [|discriminate].
    destruct (datetime_add_ok _ _ Ad) as [-> C2]. cbn [bind] in E.
    destruct (test_actions start interval (i + 1) texts) as [rest|] eqn:Er;
      [|discriminate].
    cbn [bind] in E. injection E as <-.
    destruct (IH _ _ Er) as [F P].
    assert (Off : offset_ok start (i * interval) = true).
    { unfold offset_ok. apply andb_prop in C1, C2.
      destruct C1 as [-> ->], C2 as [-> ->]. reflexivity. }
    split.
    + constructor.
      * exists 0%nat. cbn [fst snd]. rewrite Z.add_0_r. split; [|exact Off].
        reflexivity.
      * eapply Forall2_impl; [|exact F].
        intros [t s] a (n & -> & Hn). exists (S n). cbn [fst snd] in *.
        replace (i + Z.of_nat (S n)) with (i + 1 + Z.of_nat n) by lia.
        now split.
    + intros [|n] ts Hn.
      * cbn [nth_error] in *. injection Hn as <-. cbn [fst snd].
        rewrite Z.add_0_r. reflexivity.
      * cbn [nth_error] in *.
        replace (i + Z.of_nat (S n)) with (i + 1 + Z.of_nat n) by lia.
        now apply P.
Qed.

(** X1. Whenever [generate_test_event] returns, the event has the six
    actions of [action_texts] in their order; the action at index [n]
    holds exactly the items id [action-<n+1>], time (the start plus [n]
    intervals), the text, the two announce flags set, the style, and the
    haptic pattern [double] for the style [normal] and [triple] for any
    other style. *)
Theorem generate_test_event_timeline (now : Datetime.datetime)
    (minutes interval : Z) (ev : pyval) :
  generate_test_event now minutes interval = Ok ev ->
  exists timeline,
    ev = event_dict (str "Test Flash Mob")
           (str "A test event for Conductor Mobile development")
           (Datetime.strftime (after now (minutes * 60)))
           (str "America/New_York") timeline
    /\ List.length timeline = 6%nat
    /\ forall (n : nat) (text style : pystr),
         nth_error action_texts n = Some (text, style) ->
         nth_error timeline n
         = Some (test_action (after now (minutes * 60)) interval
                   (Z.of_nat n) text style).
Proof.
  unfold generate_test_event. intros E.
  unfold Datetime.timedelta_minutes in E.
  destruct (Datetime.timedelta_new (minutes * 60 * Datetime.US_PER_SECOND))
    as [td|] eqn:Td; [|discriminate].
  destruct (timedelta_new_ok _ Td) as [-> _]. cbn [bind] in E.
  destruct (Datetime.add now (minutes * 60 * Datetime.US_PER_SECOND))
    as [start|] eqn:Ad; [|discriminate].
  destruct (datetime_add_ok _ _ Ad) as [-> _]. cbn [bind] in E.
  fold (after now (minutes * 60)) in E.
  destruct (test_actions (after now (minutes * 60)) interval 0 action_texts)
    as [timeline|] eqn:T; [|discriminate].
  cbn [bind] in E. injection E as <-.
  destruct (test_actions_built _ _ _ _ T) as [F P].
  exists timeline. split; [reflexivity|]. split.
  - apply Forall2_length in F. now rewrite <- F.
  - intros n text style Hn. rewrite (P n _ Hn). now rewrite Z.add_0_l.
Qed.

Lemma generate_test_event_timeline_witness :
  exists ev timeline,
    generate_test_event sample_now 2 15 = Ok ev
    /\ List.length timeline = 6%nat
    /\ nth_error timeline 1
       = Some (test_action (after sample_now 120) 15 1 (str "Wave slowly")
                 (str "normal")).
Proof.
  destruct (generate_test_event sample_now 2 15) as [ev|] eqn:E;
    [|vm_compute in E; discriminate E].
  destruct (generate_test_event_timeline _ _ _ E) as (timeline & _ & L & P).
  exists ev, timeline. split; [reflexivity|]. split; [exact L|].
  exact (P 1%nat (str "Wave slowly") (str "normal") eq_refl).
Defined.

End Generators.

(** * Further properties of encode_event *)

Section Tokens.

Local Open Scope N_scope.

Lemma b64_body_gzip_head (p q : byte) (rest : bytes) :
  firstn 5 (b64_body (x1f :: x8b :: x08 :: x00 :: p :: q :: rest))
  = list_byte_of_string "H4sIA".
Proof.
  cbn [b64_body firstn].
  pose proof (to_N_lt_256 p). pose proof (to_N_lt_256 q).
  replace ((Byte.to_N x00 * 65536 + Byte.to_N p * 256 + Byte.to_N q) / 262144)
    with 0 by (change (Byte.to_N x00) with 0; div_lia).
  reflexivity.
Qed.

(** X2. Every token starts with [H4sIA], the base64 text of the gzip
    magic number, the deflate method and the empty flag byte, whatever
    the event, the clock and the compressor. *)
Theorem token_gzip_signature deflate clock event token :
  encode_event deflate clock event = Ok token ->
  firstn 5 token = str "H4sIA".
Proof.
  intros E.
  destruct (N.lt_ge_cases clock (2 ^ 32)) as [H|H].
  2:{ rewrite (encode_event_late _ _ H) in E. discriminate. }
  rewrite (encode_event_ok _ _ H) in E. injection E as <-.
  rewrite token_of_body. unfold replace, ascii_str.
  rewrite !map_map, firstn_map.
  unfold gzip_bytes, le32. cbn [app].
  rewrite b64_body_gzip_head. reflexivity.
Qed.

Lemma token_gzip_signature_witness :
  exists token,
    encode_event Stored.deflate 1700000000 sample_event = Ok token
    /\ firstn 5 token = str "H4sIA".
Proof.
  destruct (encode_event Stored.deflate 1700000000 sample_event)
    as [token|] eqn:E; [|vm_compute in E; discriminate E].
  exists token. split; [reflexivity|].
  exact (token_gzip_signature _ _ _ E).
Defined.

(** X3. [encode_event] returns a token exactly when the clock reading
    fits the 32-bit time field of the gzip header, that is until
    2106-02-07; later [struct.pack] raises. No event makes it fail. *)
Theorem encode_event_returns_iff deflate clock event :
  (exists token, encode_event deflate clock event = Ok token)
  <-> clock < 2 ^ 32.
Proof.
  split.
  - intros [token E].
    destruct (N.lt_ge_cases clock (2 ^ 32)) as [H|H]; trivial.
    rewrite (encode_event_late _ _ H) in E. discriminate.
  - intros H. eexists. apply (encode_event_ok _ _ H).
Qed.

(** X4. The last step of [encode_event] loses nothing: the compressed
    bytes are recovered from the token by completing it with [=] to a
    multiple of four characters, putting [+] and [/] back and decoding
    base64; so two compressed streams with one token are equal. *)
Theorem url_safe_base64_reversible (compressed : bytes) :
  Decode.b64decode (Decode.restore_b64 (token_of compressed))
  = Some compressed
  /\ forall other, token_of other = token_of compressed -> other = compressed.
Proof.
  split; [apply b64decode_token|]. intros other E. now apply token_of_inj.
Qed.

(** X5. The JSON text of every event is printable ASCII, non-ASCII
    characters such as the icons being written as [\u] escapes; its
    UTF-8 encoding therefore never fails and has one byte per
    character. *)
Theorem json_text_is_ascii (event : pyval) :
  Forall (fun c => 32 <= c <= 126) (json_dumps event)
  /\ exists data,
       encode_utf8 (json_dumps event) = Ok data
       /\ List.length data = List.length (json_dumps event)
       /\ map Byte.to_N data = json_dumps event.
Proof.
  split; [apply json_dumps_printable|].
  exists (ascii_bytes (json_dumps event)).
  split; [apply encode_utf8_ascii, printable_ascii, json_dumps_printable|].
  unfold ascii_bytes. split; [apply length_map|].
  rewrite map_map.
  pose proof (json_dumps_printable event) as P.
  induction P as [|c x Hc _ IH]; cbn [map]; trivial.
  rewrite IH, byte_of_N_small; trivial. unfold printable in Hc. lia.
Qed.

Lemma take_until_app (c : N) (x y : pystr) :
  Forall (fun a => a <> c) x -> take_until c (x ++ c :: y) = x.
Proof.
  induction 1 as [|a x Ha _ IH]; cbn [app take_until].
  - now rewrite N.eqb_refl.
  - destruct (N.eqb_spec a c); [contradiction|]. now rewrite IH.
Qed.

Lemma last_segment_app (x y : pystr) :
  Forall (fun a => a <> 47) y -> last_segment (x ++ 47 :: y) = y.
Proof.
  intros H. unfold last_segment.
  rewrite rev_app_distr. cbn [rev]. rewrite <- app_assoc. cbn [app].
  rewrite take_until_app; [apply rev_involutive|].
  apply Forall_forall. intros a Ha. apply in_rev in Ha.
  rewrite Forall_forall in H. now apply H.
Qed.

(** X6. In the deep link [conductor://event/<token>] the token is the
    text after the last [/]: a token holds no [/], so the link can be
    split again without knowing its length. *)
Theorem conductor_url_token deflate clock event token :
  encode_event deflate clock event = Ok token ->
  last_segment (conductor_url token) = token
  /\ List.length (conductor_url token) = (18 + List.length token)%nat.
Proof.
  intros E.
  assert (T : Forall (fun a => a <> 47) token).
  { destruct (N.lt_ge_cases clock (2 ^ 32)) as [H|H].
    2:{ rewrite (encode_event_late _ _ H) in E. discriminate. }
    rewrite (encode_event_ok _ _ H) in E. injection E as <-.
    eapply Forall_impl; [|apply token_chars].
    intros c Hc. cbv beta in Hc. unfold is_token_char in Hc. lia. }
  split.
  - change (conductor_url token)
      with (str "conductor://event" ++ 47 :: token).
    now apply last_segment_app.
  - unfold conductor_url. now rewrite length_app.
Qed.

Lemma conductor_url_token_witness :
  exists token,
    encode_event Stored.deflate 1700000000 sample_event = Ok token
    /\ last_segment (conductor_url token) = token.
Proof.
  destruct (encode_event Stored.deflate 1700000000 sample_event)
    as [token|] eqn:E; [|vm_compute in E; discriminate E].
  exists token. split; [reflexivity|].
  exact (proj1 (conductor_url_token _ _ _ E)).
Defined.

End Tokens.

(** * Further properties of the builders *)

Section BuilderEdges.

Local Open Scope Z_scope.

(** X7. [generate_event] looks the template up before anything else: a
    name other than [inaugural] and [diagnostic] raises [KeyError] with
    that name, whatever the clock and the start offset. *)
Theorem generate_event_unknown_template (now : Datetime.datetime)
    (name : pystr) (minutes : Z) :
  name <> str "inaugural" -> name <> str "diagnostic" ->
  generate_event now name minutes = Raise (KeyError name).
Proof.
  intros H1 H2. unfold generate_event, EVENTS. cbn [events_get].
  rewrite (proj2 (pystr_eqb_neq (str "inaugural") name)) by congruence.
  rewrite (proj2 (pystr_eqb_neq (str "diagnostic") name)) by congruence.
  reflexivity.
Qed.

Lemma generate_event_unknown_template_witness :
  generate_event sample_now (str "pantheon") 2
  = Raise (KeyError (str "pantheon")).
Proof.
  apply generate_event_unknown_template; discriminate.
Defined.

Lemma build_actions_head (start : Datetime.datetime) (i : Z) (t : pydict)
    (rest : list pydict) (timeline : list pyval) :
  build_actions start i (t :: rest) = Ok timeline ->
  exists relative delta action_time text tl,
    dict_get t (str "relativeTime") = Ok relative
    /\ Datetime.timedelta_seconds relative = Ok delta
    /\ Datetime.add start delta = Ok action_time
    /\ dict_get t (str "action") = Ok text
    /\ build_actions start (i + 1) rest = Ok tl
    /\ timeline
       = PDict (dict_of_items
                  ([(str "id", PStr (str "action-" ++ int_repr (i + 1)));
                    (str "time", PStr (Datetime.strftime action_time));
                    (str "action", text);
                    (str "audioAnnounce", PBool true);
                    (str "announceActionName", PBool true)]
                     ++ without_action t)) :: tl.
Proof.
  cbn [build_actions]. intros E.
  destruct (dict_get t (str "relativeTime")) as [relative|] eqn:G1;
    [|discriminate].
  cbn [bind] in E.
  destruct (Datetime.timedelta_seconds relative) as [delta|] eqn:G2;
    [|discriminate].
  cbn [bind] in E.
  destruct (Datetime.add start delta) as [action_time|] eqn:G3;
    [|discriminate].
  cbn [bind] in E.
  destruct (dict_get t (str "action")) as [text|] eqn:G4; [|discriminate].
  cbn [bind] in E.
  destruct (build_actions start (i + 1) rest) as [tl|] eqn:G5;
    [|discriminate].
  cbn [bind] in E. injection E as <-.
  exists relative, delta, action_time, text, tl. repeat split; trivial.
Qed.

(** X8. The items of an action template are copied after the builder's
    own: whatever a template holds under a key other than [action],
    also under [id], [time], [audioAnnounce] or [announceActionName],
    is what the built action holds under that key; the text of the
    action is the template's. *)
Theorem template_items_override (start : Datetime.datetime) (i : Z)
    (t : pydict) (rest : list pydict) (timeline : list pyval) :
  unique_keys t = true ->
  build_actions start i (t :: rest) = Ok timeline ->
  exists action tl,
    timeline = PDict action :: tl
    /\ dict_get action (str "action") = dict_get t (str "action")
    /\ forall k v,
         k <> str "action" -> dict_get t k = Ok v -> dict_get action k = Ok v.
Proof.
  intros U E.
  destruct (build_actions_head _ _ _ _ E)
    as (relative & delta & action_time & text & tl & _ & _ & _ & T & _ & ->).
  eexists. exists tl. split; [reflexivity|]. split.
  - rewrite action_dict_get by (trivial; reflexivity).
    rewrite pystr_eqb_refl. cbn [negb andb]. now rewrite T.
  - intros k v Hk G.
    rewrite action_dict_get by (trivial; reflexivity).
    rewrite (proj2 (pystr_eqb_neq k (str "action")) Hk).
    rewrite (proj2 (dict_get_present t k) (ex_intro _ v G)).
    exact G.
Qed.

Lemma template_items_override_witness :
  exists action tl,
    build_event (str "America/Denver") duplicate_template
      (after sample_now 120)
    = Ok (event_dict (str "Duplicate") (str "Two actions with one id")
            (str "2026-11-03T16:48:10Z") (str "America/Denver")
            (PDict action :: tl))
    /\ dict_get action (str "id") = Ok (PStr (str "same")).
Proof.
  destruct (build_actions (after sample_now 120) 0
              (actions duplicate_template)) as [timeline|] eqn:E;
    [|vm_compute in E; discriminate E].
  destruct (@template_items_override (after sample_now 120) 0
              [(str "id", PStr (str "same")); (str "relativeTime", PInt 0);
               (str "action", PStr (str "A"));
               (str "style", PStr (str "normal"))]
              [[(str "id", PStr (str "same")); (str "relativeTime", PInt 20);
                (str "action", PStr (str "B"));
                (str "style", PStr (str "alert"))]]
              timeline eq_refl E) as (action & tl & -> & _ & P).
  exists action, tl. split.
  - unfold build_event. change (actions duplicate_template)
      with [[(str "id", PStr (str "same")); (str "relativeTime", PInt 0);
             (str "action", PStr (str "A"));
             (str "style", PStr (str "normal"))];
            [(str "id", PStr (str "same")); (str "relativeTime", PInt 20);
             (str "action", PStr (str "B"));
             (str "style", PStr (str "alert"))]] in E |- *.
    rewrite E. reflexivity.
  - apply P; [discriminate | reflexivity].
Defined.

End BuilderEdges.

Section TimestampShape.

Local Open Scope Z_scope.







End TimestampShape.

Section PantheonAndIds.

Local Open Scope Z_scope.

Lemma dict_set_absent (d : pydict) (k : pystr) (v : pyval) :
  has_key d k = false -> dict_set d k v = d ++ [(k, v)].
Proof.
  induction d as [|[k' v'] d IH]; cbn [has_key existsb fst dict_set app];
    trivial.
  destruct (pystr_eqb k' k); cbn [orb]; [discriminate|].
  intros H. f_equal. now apply IH.
Qed.

(** The loop of [generate_pantheon_event] on actions without a [time]
    item: each action gets its time as a last item. *)
Lemma set_times_appends (start : Datetime.datetime) (actions : list pydict)
    (timeline : list pyval) :
  forallb (fun a => negb (has_key a (str "time"))) actions = true ->
  Forall (fun a => exists rel, relative_time a = Some rel) actions ->
  set_times start actions = Ok timeline ->
  Forall2 (fun a b => exists rel,
             relative_time a = Some rel
             /\ offset_ok start rel = true
             /\ b = PDict (a ++ [(str "time",
                                   PStr (Datetime.strftime
                                           (after start rel)))]))
    actions timeline.
Proof.
  revert timeline. induction actions as [|a actions IH]; intros timeline N R E.
  - cbn in E. injection E as <-. constructor.
  - cbn [forallb] in N. apply andb_prop in N. destruct N as [Na Nr].
    apply negb_true_iff in Na.
    destruct (Forall_inv R) as [rel Hr].
    cbn [set_times] in E. rewrite (relative_time_get _ Hr) in E.
    cbn [bind Datetime.timedelta_seconds] in E.
    destruct (Datetime.timedelta_new (rel * Datetime.US_PER_SECOND))
      as [td|] eqn:Td; [|discriminate].
    destruct (timedelta_new_ok _ Td) as [-> C1]. cbn [bind] in E.
    destruct (Datetime.add start (rel * Datetime.US_PER_SECOND))
      as [at_|] eqn:Ad; [|discriminate].
    destruct (datetime_add_ok _ _ Ad) as [-> C2]. cbn [bind] in E.
    destruct (set_times start actions) as [rest|] eqn:Er; [|discriminate].
    cbn [bind] in E. injection E as <-.
    constructor; [|exact (IH _ Nr (Forall_inv_tail R) eq_refl)].
    exists rel. split; [exact Hr|]. split.
    + unfold offset_ok. apply andb_prop in C1, C2.
      destruct C1 as [-> ->], C2 as [-> ->]. reflexivity.
    + now rewrite (dict_set_absent _ _ _ Na).
Qed.

(** X10. Whenever [generate_pantheon_event] returns, its timeline is
    the five actions as they are written in the script, ids included,
    each followed by one more item: its time, the start plus its
    [relativeTime]. The time is the last item of every action. *)
Theorem generate_pantheon_event_timeline (now : Datetime.datetime)
    (minutes : Z) (ev : pyval) :
  generate_pantheon_event now minutes = Ok ev ->
  exists timeline,
    ev = event_dict (str "Pantheon Inaugural")
           (str "Your AI assistants present: a demonstration of synchronized coordination.")
           (Datetime.strftime (after now (minutes * 60)))
           (str "America/Denver") timeline
    /\ Forall2 (fun a b => exists rel,
                  relative_time a = Some rel
                  /\ b = PDict (a ++ [(str "time",
                                        PStr (Datetime.strftime
                                                (after
                                                   (after now (minutes * 60))
                                                   rel)))]))
         pantheon_actions timeline.
Proof.
  intros E.
  destruct (generate_pantheon_event_inv _ _ E) as (timeline & S & ->).
  exists timeline. split; [reflexivity|].
  assert (F : Forall2 (fun a b => exists rel,
                relative_time a = Some rel
                /\ offset_ok (after now (minutes * 60)) rel = true
                /\ b = PDict (a ++ [(str "time",
                                      PStr (Datetime.strftime
                                              (after
                                                 (after now (minutes * 60))
                                                 rel)))]))
                pantheon_actions timeline).
  { eapply set_times_appends; [reflexivity | | exact S].
    unfold pantheon_actions.
    repeat (constructor; [eexists; reflexivity|]). constructor. }
  eapply Forall2_impl; [|exact F].
  intros a b (rel & R & _ & B). now exists rel.
Qed.

Lemma generate_pantheon_event_timeline_witness :
  exists ev timeline,
    generate_pantheon_event sample_now 2 = Ok ev
    /\ List.length timeline = 5%nat
    /\ ev = event_dict (str "Pantheon Inaugural")
              (str "Your AI assistants present: a demonstration of synchronized coordination.")
              (Datetime.strftime (after sample_now (2 * 60)))
              (str "America/Denver") timeline.
Proof.
  destruct (generate_pantheon_event sample_now 2) as [ev|] eqn:E;
    [|vm_compute in E; discriminate E].
  destruct (generate_pantheon_event_timeline _ _ E) as (timeline & -> & F).
  eexists. exists timeline. split; [reflexivity|]. split; [|reflexivity].
  apply Forall2_length in F. now rewrite <- F.
Defined.

(** *** The ids of a built event *)

Lemma uint_chars_inj (d1 d2 : Decimal.uint) :
  uint_chars d1 = uint_chars d2 -> d1 = d2.
Proof.
  revert d2. induction d1; intros [ | | | | | | | | | | ] E;
    cbn [uint_chars] in E; try discriminate E; trivial;
    injection E as E; f_equal; now apply IHd1.
Qed.

Lemma uint_chars_no_sign (d : Decimal.uint) (x : pystr) :
  uint_chars d <> 45%N :: x.
Proof. destruct d; discriminate. Qed.

(** [repr] is injective on the integers. *)
Lemma int_repr_inj (a b : Z) : int_repr a = int_repr b -> a = b.
Proof.
  assert (P : forall z, 0 <= z ->
            int_repr z = uint_chars (N.to_uint (Z.to_N z))).
  { intros [ | |] H; trivial. lia. }
  destruct (Z.lt_ge_cases a 0) as [Ha|Ha], (Z.lt_ge_cases b 0) as [Hb|Hb].
  - destruct a as [ | |p]; try lia. destruct b as [ | |q]; try lia.
    cbn [int_repr]. intros E. injection E as E.
    apply uint_chars_inj, DecimalPos.Unsigned.to_uint_inj in E. now subst.
  - destruct a as [ | |p]; try lia. rewrite (P b Hb). cbn [int_repr].
    intros E. symmetry in E. now apply uint_chars_no_sign in E.
  - destruct b as [ | |q]; try lia. rewrite (P a Ha). cbn [int_repr].
    intros E. now apply uint_chars_no_sign in E.
  - rewrite (P a Ha), (P b Hb). intros E.
    apply uint_chars_inj, DecimalN.Unsigned.to_uint_inj in E. lia.
Qed.

Lemma NoDup_map_injective {A B} (f : A -> B) (l : list A) :
  (forall x y, f x = f y -> x = y) -> NoDup l -> NoDup (map f l).
Proof.
  intros I. induction 1 as [|a l Ha _ IH]; cbn [map]; constructor; trivial.
  intros H. apply in_map_iff in H. destruct H as (b & E & Hb).
  apply I in E. now subst.
Qed.

(** X11. The ids of a built event are present and pairwise different:
    on templates that hold an integer [relativeTime] and an [action] and
    no [id] of their own, the builder numbers the actions, and different
    numbers are written differently. *)
Theorem built_ids_distinct (tz : pystr) (t : template)
    (start : Datetime.datetime) :
  forallb (action_template_ok start) (actions t) = true ->
  exists timeline ids,
    build_event tz t start
    = Ok (event_dict (title t) (description t) (Datetime.strftime start) tz
            timeline)
    /\ map action_id timeline = map Some ids
    /\ NoDup ids.
Proof.
  intros H.
  destruct (build_actions_ok start (actions t) 0 H) as (timeline & E & L & P).
  exists timeline,
    (map (fun n => str "action-" ++ int_repr (Z.of_nat n + 1))
       (seq 0 (List.length timeline))).
  split; [now apply build_event_ok|]. split.
  - apply nth_error_ext. intros n.
    rewrite !nth_error_map.
    destruct (nth_error (actions t) n) as [a|] eqn:Hn.
    + destruct (P n a Hn) as (action & rel & P1 & _ & P3 & _).
      rewrite P1. cbn [option_map action_id]. rewrite P3.
      assert (Ln : (n < List.length timeline)%nat).
      { apply nth_error_Some. now rewrite P1. }
      rewrite (nth_error_nth' _ O) by now rewrite length_seq.
      rewrite seq_nth by exact Ln. cbn [option_map]. reflexivity.
    + apply nth_error_None in Hn. rewrite <- L in Hn.
      rewrite (proj2 (nth_error_None timeline n) Hn).
      rewrite (proj2 (nth_error_None (seq 0 (List.length timeline)) n));
        [reflexivity | now rewrite length_seq].
  - apply NoDup_map_injective; [|apply seq_NoDup].
    intros n m Enm. apply app_inv_head, int_repr_inj in Enm. lia.
Qed.

Lemma built_ids_distinct_witness :
  exists timeline ids,
    build_event (str "America/Denver") scenario_template
      (after sample_now 120)
    = Ok (event_dict (str "Scenario") (str "Two actions")
            (str "2026-11-03T16:48:10Z") (str "America/Denver") timeline)
    /\ map action_id timeline = map Some ids
    /\ NoDup ids.
Proof.
  apply (@built_ids_distinct (str "America/Denver") scenario_template
           (after sample_now 120)).
  reflexivity.
Defined.

End PantheonAndIds.

Section Overflow.

Local Open Scope Z_scope.

Lemma offset_not_ok (start : Datetime.datetime) (rel : Z) :
  offset_ok start rel = false ->
  (delta <- Datetime.timedelta_seconds (PInt rel) ;;
   Datetime.add start delta)
  = Raise OverflowError.
Proof.
  unfold offset_ok, Datetime.timedelta_seconds, Datetime.timedelta_new,
    Datetime.add.
  intros H.
  destruct ((-999999999 <=? rel * Datetime.US_PER_SECOND / Datetime.US_PER_DAY)
            && (rel * Datetime.US_PER_SECOND / Datetime.US_PER_DAY
                <=? 999999999)) eqn:C1; cbn [bind]; [|reflexivity].
  cbv zeta.
  destruct ((0 <? (start + rel * Datetime.US_PER_SECOND) / Datetime.US_PER_DAY)
            && ((start + rel * Datetime.US_PER_SECOND) / Datetime.US_PER_DAY
                <=? Datetime.MAXORDINAL)) eqn:C2; [|reflexivity].
  apply andb_prop in C2. destruct C2 as [C2 C3].
  rewrite C2, C3 in H. discriminate H.
Qed.

Lemma bind_assoc {A B C} (r : result A) (f : A -> result B)
    (g : B -> result C) :
  (b <- (a <- r ;; f a) ;; g b) = (a <- r ;; b <- f a ;; g b).
Proof. now destruct r. Qed.

(** On well-formed templates the loop of [generate_event] fails only
    when a date leaves the calendar, with [OverflowError]. *)
Lemma build_actions_overflow (start : Datetime.datetime)
    (templates : list pydict) (i : Z) :
  forallb action_template_wf templates = true ->
  forallb (action_template_ok start) templates = false ->
  build_actions start i templates = Raise OverflowError.
Proof.
  revert i. induction templates as [|t templates IH]; intros i W H;
    [discriminate H|].
  cbn [forallb] in W, H. apply andb_prop in W. destruct W as [Wt Wr].
  pose proof Wt as Wt'. unfold action_template_wf in Wt'.
  repeat (apply andb_prop in Wt'; destruct Wt' as [Wt' ?]).
  destruct (relative_time t) as [rel|] eqn:R; [|discriminate].
  destruct (proj1 (dict_get_present _ _) H3) as [text Htext].
  cbn [build_actions]. rewrite (relative_time_get _ R). cbn [bind].
  unfold action_template_ok in H at 1. rewrite Wt, R in H. cbn [andb] in H.
  destruct (offset_ok start rel) eqn:O.
  - destruct (offset_ok_seconds _ _ O) as (Td & Ad & _).
    rewrite Td. cbn [bind]. rewrite Ad. cbn [bind]. rewrite Htext.
    cbn [bind]. cbn [andb] in H. now rewrite (IH _ Wr H).
  - pose proof (offset_not_ok _ _ O) as F.
    destruct (Datetime.timedelta_seconds (PInt rel)) as [delta|e];
      cbn [bind] in *; [|now injection F as ->].
    now rewrite F.
Qed.

(** X12. For a template name of [EVENTS], [generate_event] returns an
    event exactly when the start and the time of every action are dates
    of the calendar (years 1 to 9999); otherwise it raises
    [OverflowError]. Nothing else can make it fail. *)
Theorem generate_event_returns_or_overflows (now : Datetime.datetime)
    (name : pystr) (minutes : Z) (t : template) :
  events_get EVENTS name = Ok t ->
  (offset_ok now (minutes * 60)
   && forallb (action_template_ok (after now (minutes * 60))) (actions t)
   = true ->
   exists timeline,
     generate_event now name minutes
     = Ok (event_dict (title t) (description t)
             (Datetime.strftime (after now (minutes * 60)))
             (str "America/Denver") timeline)
     /\ List.length timeline = List.length (actions t))
  /\ (offset_ok now (minutes * 60)
      && forallb (action_template_ok (after now (minutes * 60))) (actions t)
      = false ->
      generate_event now name minutes = Raise OverflowError).
Proof.
  intros G. destruct (events_get_wf _ G) as [W _].
  unfold generate_event. rewrite G. cbn [bind].
  unfold Datetime.timedelta_minutes.
  change (Datetime.timedelta_new (minutes * 60 * Datetime.US_PER_SECOND))
    with (Datetime.timedelta_seconds (PInt (minutes * 60))).
  split; intros H.
  - apply andb_prop in H. destruct H as [O H].
    destruct (offset_ok_seconds _ _ O) as (Td & Ad & _).
    rewrite Td. cbn [bind]. rewrite Ad. cbn [bind].
    destruct (build_actions_ok _ _ 0 H) as (timeline & E & L & _).
    exists timeline. split; [now apply build_event_ok | exact L].
  - destruct (offset_ok now (minutes * 60)) eqn:O.
    + destruct (offset_ok_seconds _ _ O) as (Td & Ad & _).
      rewrite Td. cbn [bind]. rewrite Ad. cbn [bind].
      cbn [andb] in H. unfold build_event.
      now rewrite (build_actions_overflow _ _ 0 W H).
    + pose proof (offset_not_ok _ _ O) as F.
      destruct (Datetime.timedelta_seconds (PInt (minutes * 60)))
        as [delta|e]; cbn [bind] in *; [|now injection F as ->].
      now rewrite F.
Qed.

Lemma generate_event_returns_or_overflows_witness :
  (exists timeline,
     generate_event sample_now (str "inaugural") 2
     = Ok (event_dict (str "Pantheon Inaugural")
             (str "Your AI assistants present: a demonstration of synchronized coordination.")
             (str "2026-11-03T16:48:10Z") (str "America/Denver") timeline)
     /\ List.length timeline = 5%nat)
  /\ generate_event sample_now (str "inaugural") 4500000000
     = Raise OverflowError.
Proof.
  split.
  - destruct (events_get EVENTS (str "inaugural")) as [t|] eqn:G;
      [|vm_compute in G; discriminate G].
    pose proof (proj1 (@generate_event_returns_or_overflows sample_now _ 2
                         _ G)) as P.
    vm_compute in G. injection G as <-.
    apply P. vm_compute. reflexivity.
  - destruct (events_get EVENTS (str "inaugural")) as [t|] eqn:G;
      [|vm_compute in G; discriminate G].
    pose proof (proj2 (@generate_event_returns_or_overflows sample_now _
                         4500000000 _ G)) as P.
    vm_compute in G. injection G as <-.
    apply P. vm_compute. reflexivity.
Defined.

End Overflow.
